(** * OpenAVR: the per-frame perception pipeline, embedded in Rocq

    The development follows the class [OpenAVR] method by method.  JavaScript
    numbers are IEEE-754 binary64 values, modelled by the primitive floats of
    the kernel; property reads on [undefined] raise a [TypeError], modelled by
    an explicit completion type; the instance, the colours of the scene
    materials and the calls made to collaborators (application callbacks, DOM,
    renderer, speech recognition) are threaded through a state-and-exception
    monad. *)

From Stdlib Require Import ZArith List Ascii String Bool Sorted Lia.
From Stdlib Require Import Floats.PrimFloat.
From Stdlib Require Floats.FloatAxioms.
From Stdlib Require Import Reals Lra.
From stdpp Require Import base option list gmap strings.

Local Close Scope R_scope.
Local Open Scope string_scope.
Local Open Scope list_scope.

(* ================================================================== *)
(** * JavaScript values and completions *)

Module Js.

Inductive Error : Type :=
| TypeError (reading : string)   (* a property read on undefined or null *)
| FetchError                     (* a network request that was rejected *)
| SyntaxError.                   (* a response body that is not JSON *)

(** The outcome of evaluating a statement, or of a settled promise. *)
Inductive Completion (A : Type) : Type :=
| Normal (a : A)
| Throw (e : Error).
Arguments Normal {A} a.
Arguments Throw {A} e.

Definition is_normal {A} (c : Completion A) : bool :=
  match c with Normal _ => true | Throw _ => false end.

(** The operand of [s || d] for a string-valued property: a missing property
    and the empty string are both falsy. *)
Definition truthy (s : option string) : option string :=
  match s with
  | Some s' => if String.eqb s' "" then None else Some s'
  | None => None
  end.

(** Parsed JSON.  An object is the list of its own properties. *)
#[warnings="-register-all"]
Inductive Json : Type :=
| JNull
| JBool (b : bool)
| JNumber (n : float)
| JString (s : string)
| JArray (items : list Json)
| JObject (props : list (string * Json)).

(** A value handed to a callback: [undefined] or a parsed value. *)
Inductive Value : Type :=
| Undefined
| Val (j : Json).

Fixpoint assoc (k : string) (props : list (string * Json)) : option Json :=
  match props with
  | [] => None
  | (k', v) :: rest => if String.eqb k k' then Some v else assoc k rest
  end.

(** [data.name]: a [TypeError] on [null], [undefined] on a primitive, an
    array or an object without the property. *)
Definition getProperty (data : Json) (name : string) : Completion Value :=
  match data with
  | JNull => Throw (TypeError name)
  | JObject props =>
      match assoc name props with
      | Some v => Normal (Val v)
      | None => Normal Undefined
      end
  | _ => Normal Undefined
  end.

Definition is_space (c : ascii) : bool :=
  match nat_of_ascii c with
  | 9 | 10 | 11 | 12 | 13 | 32 => true
  | _ => false
  end.

Fixpoint trimStart (s : string) : string :=
  match s with
  | String c s' => if is_space c then trimStart s' else s
  | EmptyString => EmptyString
  end.

Definition reverse (s : string) : string :=
  string_of_list_ascii (List.rev (list_ascii_of_string s)).

(** [String.prototype.trim], on the ASCII white space characters. *)
Definition trim (s : string) : string :=
  reverse (trimStart (reverse (trimStart s))).

End Js.
Import Js.

(* ================================================================== *)
(** * Geometry: vectors and quaternions over a scalar type *)

Class Scalar (A : Type) : Type := {
  s_zero : A;
  s_one  : A;
  s_add  : A -> A -> A;
  s_sub  : A -> A -> A;
  s_mul  : A -> A -> A;
  s_neg  : A -> A;
  s_sqrt : A -> A
}.

Declare Scope scalar_scope.
Delimit Scope scalar_scope with sc.
Infix "+" := s_add : scalar_scope.
Infix "-" := s_sub : scalar_scope.
Infix "*" := s_mul : scalar_scope.
Notation "- a" := (s_neg a) : scalar_scope.

(** binary64 arithmetic, round to nearest even: the numbers of the program. *)
#[export] Instance float_Scalar : Scalar float := {
  s_zero := 0%float;
  s_one  := 1%float;
  s_add  := PrimFloat.add;
  s_sub  := PrimFloat.sub;
  s_mul  := PrimFloat.mul;
  s_neg  := PrimFloat.opp;
  s_sqrt := PrimFloat.sqrt
}.

(** exact real arithmetic: the numbers the geometry is meant to approximate. *)
#[export] Instance R_Scalar : Scalar R := {
  s_zero := 0%R;
  s_one  := 1%R;
  s_add  := Rplus;
  s_sub  := Rminus;
  s_mul  := Rmult;
  s_neg  := Ropp;
  s_sqrt := sqrt
}.

Module THREE.

Record Vector3 (A : Type) : Type := mkVector3 { x : A; y : A; z : A }.
Arguments mkVector3 {A} x y z.
Arguments x {A} v.
Arguments y {A} v.
Arguments z {A} v.

Record Quaternion (A : Type) : Type :=
  mkQuaternion { qx : A; qy : A; qz : A; qw : A }.
Arguments mkQuaternion {A} qx qy qz qw.
Arguments qx {A} q.
Arguments qy {A} q.
Arguments qz {A} q.
Arguments qw {A} q.

Section Algebra.
Context {A : Type} `{Scalar A}.
Local Open Scope scalar_scope.

(** Hamilton product [a * b]. *)
Definition multiply (a b : Quaternion A) : Quaternion A :=
  mkQuaternion
    (qw a * qx b + qx a * qw b + qy a * qz b - qz a * qy b)
    (qw a * qy b - qx a * qz b + qy a * qw b + qz a * qx b)
    (qw a * qz b + qx a * qy b - qy a * qx b + qz a * qw b)
    (qw a * qw b - qx a * qx b - qy a * qy b - qz a * qz b).

Definition conjugate (q : Quaternion A) : Quaternion A :=
  mkQuaternion (- qx q) (- qy q) (- qz q) (qw q).

Definition lengthSq (v : Vector3 A) : A :=
  x v * x v + y v * y v + z v * z v.

Definition length (v : Vector3 A) : A := s_sqrt (lengthSq v).

Definition qlengthSq (q : Quaternion A) : A :=
  qx q * qx q + qy q * qy q + qz q * qz q + qw q * qw q.

(** Modelled from the spec: [THREE.Vector3.applyQuaternion] belongs to the
    three package, which the class imports and which is not part of its
    sources.  The spec describes it as the application of a quaternion to a
    direction vector, a pure rotation for a unit quaternion: the vector part
    of [q * (v, 0) * conjugate q]. *)
Definition applyQuaternion (v : Vector3 A) (q : Quaternion A) : Vector3 A :=
  let p := multiply (multiply q (mkQuaternion (x v) (y v) (z v) s_zero))
                    (conjugate q) in
  mkVector3 (qx p) (qy p) (qz p).

End Algebra.

(** The colour of a material, as the 24-bit integer three.js is given. *)
Definition Color : Type := Z.

(** Materials live in a store and meshes refer to them: two meshes may share
    one material. *)
Definition MaterialRef : Type := nat.

Record Object3D : Type := mkObject3D {
  name     : string;
  position : Vector3 float;
  material : MaterialRef
}.

Record Intersection : Type := mkIntersection {
  distance : float;
  object   : Object3D
}.

Record PerspectiveCamera : Type := mkCamera {
  cam_position   : Vector3 float;
  cam_quaternion : Quaternion float
}.

End THREE.

(** The forward reference direction of the gaze ray and the identity
    orientation. *)
Definition forward : THREE.Vector3 float :=
  THREE.mkVector3 0%float 0%float (- 1)%float.

Definition identityQ : THREE.Quaternion float :=
  THREE.mkQuaternion 0%float 0%float 0%float 1%float.


(* ================================================================== *)
(** * The WebXR device interface, as far as the class reads it *)

Module XR.

Record DOMPointReadOnly : Type := mkPoint {
  x : float; y : float; z : float; w : float
}.

Record RigidTransform : Type := mkTransform {
  position    : DOMPointReadOnly;
  orientation : DOMPointReadOnly
}.

(** [XRView] and [XRJointPose] are both read through their [transform]. *)
Record Pose : Type := mkPose { transform : RigidTransform }.
Definition View : Type := Pose.
Definition JointPose : Type := Pose.

Record ViewerPose : Type := mkViewerPose { views : list View }.

Definition JointSpace : Type := nat.
Definition ReferenceSpace : Type := nat.

(** [XRHand] is a map from joint names to joint spaces; [hand.get(name)] is
    its lookup. *)
Definition Hand : Type := gmap string JointSpace.

Record GamepadButton : Type := mkButton { pressed : bool }.
Record Gamepad : Type := mkGamepad { buttons : list GamepadButton }.

Record InputSource : Type := mkInputSource {
  hand    : option Hand;
  gamepad : option Gamepad
}.

Record Session : Type := mkSession { inputSources : list InputSource }.

(** A frame answers the two queries of the class.  [getViewerPose] yields a
    pose or [null]; [getJointPose] is handed whatever [hand.get] returned and
    the stored reference space, and yields a pose, [null] (tracking lost), or
    throws. *)
Record Frame : Type := mkFrame {
  session       : Session;
  getViewerPose : option ReferenceSpace -> option ViewerPose;
  getJointPose  : option JointSpace -> option ReferenceSpace ->
                  Completion (option JointPose)
}.

End XR.

(* ================================================================== *)
(** * The control panel *)

Module DOM.

Record Element : Type := mkElement { tag : string; id : string }.

Record Container : Type := mkContainer {
  container_id : string;
  content      : list Element
}.

(** [container.querySelector(selector)] for an id selector [#name]: the first
    descendant with that id, or [null]. *)
Definition querySelector (c : Container) (selector : string) : option Element :=
  match selector with
  | String "#" name =>
      List.find (fun e => String.eqb (id e) name) (content c)
  | _ => None
  end.

End DOM.

(* ================================================================== *)
(** * The instance and the world around it *)

(** A callback is either the default [() => {}] or a function supplied by the
    application. *)
Inductive Callback : Type :=
| Noop
| AppFunction (label : string).

Record Options : Type := mkOptions {
  opt_mode           : option string;
  opt_renderer       : option Callback;
  opt_onGesture      : option Callback;
  opt_onVoiceCommand : option Callback;
  opt_witToken       : option string
}.

Record Window : Type := mkWindow {
  SpeechRecognition       : bool;
  webkitSpeechRecognition : bool
}.

Record OpenAVR : Type := mkOpenAVR {
  mode             : string;
  renderer         : option Callback;
  onGesture        : Callback;
  onVoiceCommand   : Callback;
  witToken         : option string;
  xrReferenceSpace : option XR.ReferenceSpace;
  scene            : list THREE.Object3D;
  camera           : THREE.PerspectiveCamera;
  guiContainer     : option DOM.Container
}.

(** A request to the classification service: the transcript that is sent as
    the query (before percent-encoding) and the Authorization header. *)
Record Request : Type := mkRequest {
  q             : string;
  authorization : string
}.

(** Calls that leave the class, in the order they are made. *)
Inductive Event : Type :=
| Gesture (callback : Callback) (type : string)     (* this.onGesture(type) *)
| VoiceCommand (callback : Callback) (entities : Value)
| Click (target : DOM.Element)
| AppendChild (id : string)                         (* document.body *)
| SetSize
| SetAnimationLoop
| RequestAnimationFrame
| RecognitionStart (lang : string) (continuous : bool)
| Fetch (req : Request)
| UnhandledRejection (reason : Error).

Record World : Type := mkWorld {
  self      : OpenAVR;
  materials : gmap THREE.MaterialRef THREE.Color;
  log       : list Event
}.

(* ================================================================== *)
(** * State and exceptions *)

(** A method runs on a world and either completes or throws; what it changed
    before throwing stays changed. *)
Definition M (A : Type) : Type := World -> Completion A * World.

#[export] Instance M_ret : MRet M := fun A a w => (Normal a, w).

#[export] Instance M_bind : MBind M := fun A B k m w =>
  match m w with
  | (Normal a, w') => k a w'
  | (Throw e, w') => (Throw e, w')
  end.

Definition throw {A} (e : Error) : M A := fun w => (Throw e, w).

Definition lift {A} (c : Completion A) : M A := fun w => (c, w).

(** [o.name] where [o] may be [undefined] or [null]. *)
Definition read {A} (name : string) (o : option A) : M A :=
  match o with
  | Some a => mret a
  | None => throw (TypeError name)
  end.

Definition getThis : M OpenAVR := fun w => (Normal (self w), w).

Definition setThis (this : OpenAVR) : M unit :=
  fun w => (Normal tt, mkWorld this (materials w) (log w)).

Definition emit (e : Event) : M unit :=
  fun w => (Normal tt, mkWorld (self w) (materials w) (log w ++ [e])).

(** [material.color.set(c)] *)
Definition setColor (m : THREE.MaterialRef) (c : THREE.Color) : M unit :=
  fun w => (Normal tt, mkWorld (self w) (<[m := c]> (materials w)) (log w)).

(** [new THREE.MeshBasicMaterial({ color: c })] *)
Definition newMaterial (c : THREE.Color) : M THREE.MaterialRef :=
  fun w =>
    let m := fresh (dom (materials w)) in
    (Normal m, mkWorld (self w) (<[m := c]> (materials w)) (log w)).

(** [for (const a of l) body] *)
Fixpoint forOf {A} (l : list A) (body : A -> M unit) : M unit :=
  match l with
  | [] => mret tt
  | a :: rest => body a;; forOf rest body
  end.

Definition with_camera (this : OpenAVR) (c : THREE.PerspectiveCamera)
    : OpenAVR :=
  mkOpenAVR (mode this) (renderer this) (onGesture this) (onVoiceCommand this)
    (witToken this) (xrReferenceSpace this) (scene this) c (guiContainer this).

Definition with_scene (this : OpenAVR) (s : list THREE.Object3D) : OpenAVR :=
  mkOpenAVR (mode this) (renderer this) (onGesture this) (onVoiceCommand this)
    (witToken this) (xrReferenceSpace this) s (camera this) (guiContainer this).

Definition with_guiContainer (this : OpenAVR) (g : option DOM.Container)
    : OpenAVR :=
  mkOpenAVR (mode this) (renderer this) (onGesture this) (onVoiceCommand this)
    (witToken this) (xrReferenceSpace this) (scene this) (camera this) g.

(** The pinch threshold: the literal [0.02], that is the binary64 value
    nearest to 1/50. *)
Definition pinchThreshold : float := 0x1.47ae147ae147bp-6%float.

(** The highlight colour [0xff0000] and the colour of the 3D button. *)
Definition red : THREE.Color := 0xff0000%Z.
Definition green : THREE.Color := 0x00ff00%Z.

(* ================================================================== *)
(** * The methods of the class *)

Section Pipeline.

(** [THREE.Raycaster]: [set(origin, direction)] followed by
    [intersectObjects(children)].  The ray caster belongs to the three
    package; the class only relies on the sequence of hits it returns. *)
Variable intersectObjects :
  THREE.Vector3 float -> THREE.Vector3 float -> list THREE.Object3D ->
  list THREE.Intersection.

Definition updateCameraFromPose (pose : XR.ViewerPose) : M unit :=
  let view := XR.views pose !! 0%nat in
  view ← read "transform" view;
  let pos := XR.position (XR.transform view) in
  let ori := XR.orientation (XR.transform view) in
  this ← getThis;
  setThis (with_camera this
    (THREE.mkCamera
       (THREE.mkVector3 (XR.x pos) (XR.y pos) (XR.z pos))
       (THREE.cam_quaternion (camera this))));;
  this ← getThis;
  setThis (with_camera this
    (THREE.mkCamera
       (THREE.cam_position (camera this))
       (THREE.mkQuaternion (XR.x ori) (XR.y ori) (XR.z ori) (XR.w ori)))).

Definition detectGestures (hand : XR.Hand) (frame : XR.Frame) : M unit :=
  let indexTip := hand !! "index-finger-tip" in
  let thumbTip := hand !! "thumb-tip" in
  this ← getThis;
  indexPose ← lift (XR.getJointPose frame indexTip (xrReferenceSpace this));
  thumbPose ← lift (XR.getJointPose frame thumbTip (xrReferenceSpace this));
  match indexPose, thumbPose with
  | Some indexPose, Some thumbPose =>
      let ip := XR.position (XR.transform indexPose) in
      let tp := XR.position (XR.transform thumbPose) in
      let dx := (XR.x ip - XR.x tp)%float in
      let dy := (XR.y ip - XR.y tp)%float in
      let dz := (XR.z ip - XR.z tp)%float in
      let distance := PrimFloat.sqrt (dx * dx + dy * dy + dz * dz)%float in
      if (distance <? pinchThreshold)%float then
        emit (Gesture (onGesture this) "pinch");;
        gui ← read "querySelector" (guiContainer this);
        btn ← read "click" (DOM.querySelector gui "#actionBtn");
        emit (Click btn)
      else mret tt
  | _, _ => mret tt
  end.

Definition detectGaze (pose : XR.ViewerPose) : M unit :=
  view ← read "transform" (XR.views pose !! 0%nat);
  let orientation := XR.orientation (XR.transform view) in
  let quaternion :=
    THREE.mkQuaternion (XR.x orientation) (XR.y orientation)
                       (XR.z orientation) (XR.w orientation) in
  let gazeDirection :=
    THREE.applyQuaternion (THREE.mkVector3 0 0 (- 1))%float quaternion in
  this ← getThis;
  let intersects :=
    intersectObjects (THREE.cam_position (camera this)) gazeDirection
                     (scene this) in
  match intersects with
  | first :: _ => setColor (THREE.material (THREE.object first)) red
  | [] => mret tt
  end.

Definition detectControllerInput (inputSource : XR.InputSource) : M unit :=
  gamepad ← read "buttons" (XR.gamepad inputSource);
  button ← read "pressed" (XR.buttons gamepad !! 0%nat);
  this ← getThis;
  if XR.pressed button then emit (Gesture (onGesture this) "select")
  else mret tt.

Definition onXRFrame (time : float) (frame : XR.Frame) : M unit :=
  let session := XR.session frame in
  this ← getThis;
  let pose := XR.getViewerPose frame (xrReferenceSpace this) in
  emit SetSize;;
  emit SetAnimationLoop;;
  match pose with
  | Some pose => updateCameraFromPose pose;; detectGaze pose
  | None => mret tt
  end;;
  forOf (XR.inputSources session) (fun inputSource =>
    match XR.hand inputSource with
    | Some hand => detectGestures hand frame
    | None => mret tt
    end;;
    match XR.gamepad inputSource with
    | Some _ => detectControllerInput inputSource
    | None => mret tt
    end);;
  emit RequestAnimationFrame.

Definition initVoiceInput (window : Window) : M unit :=
  let SpeechRecognition :=
    SpeechRecognition window || webkitSpeechRecognition window in
  this ← getThis;
  if negb SpeechRecognition
     || negb (bool_decide (is_Some (truthy (witToken this))))
  then mret tt
  else emit (RecognitionStart "en-US" true).

Definition createHTMLGUI : M DOM.Container :=
  let container :=
    DOM.mkContainer "openavr-gui"
      [ DOM.mkElement "h3" "";
        DOM.mkElement "button" "actionBtn";
        DOM.mkElement "input" "slider" ] in
  emit (AppendChild "openavr-gui");;
  mret container.

Definition create3DGUI : M unit :=
  material ← newMaterial green;
  let buttonMesh :=
    THREE.mkObject3D "buttonMesh"
      (THREE.mkVector3 0 0x1.8p+0 (- 2))%float material in
  this ← getThis;
  setThis (with_scene this (scene this ++ [buttonMesh])).

Definition emptyOptions : Options := mkOptions None None None None None.

(** [new OpenAVR(options)]: the world left by the constructor, from a page
    whose three.js store is [store]. *)
Definition constructor (window : Window) (options : option Options)
    (store : gmap THREE.MaterialRef THREE.Color) : Completion unit * World :=
  let options := default emptyOptions options in
  let this :=
    mkOpenAVR
      (default "AR" (truthy (opt_mode options)))
      (opt_renderer options)
      (default Noop (opt_onGesture options))
      (default Noop (opt_onVoiceCommand options))
      (truthy (opt_witToken options))
      None
      []
      (THREE.mkCamera (THREE.mkVector3 0 0 0)%float
                      (THREE.mkQuaternion 0 0 0 1)%float)
      None in
  (emit (AppendChild "canvas");;
   gui ← createHTMLGUI;
   this ← getThis;
   setThis (with_guiContainer this (Some gui));;
   initVoiceInput window;;
   create3DGUI) (mkWorld this store []).

End Pipeline.

(* ================================================================== *)
(** * The voice relay: the [onresult] handler of [initVoiceInput]

    The handler is an async function with two suspension points, the [fetch]
    and the [response.json()].  Each call of the handler is a task; the
    environment decides when and how each awaited promise settles, in any
    order across tasks.  Nothing attaches a handler to the promise the async
    function returns, so a rejection of it is reported by the host as an
    unhandled rejection. *)

Module Voice.

(** [event.results[i][j].transcript] *)
Record SpeechRecognitionEvent : Type := mkSpeechEvent {
  results : list (list string)
}.

Record Response : Type := mkResponse { status : Z }.

Inductive Task : Type :=
| AwaitingFetch (req : Request)
| AwaitingJson (response : Response).

Record Relay : Type := mkRelay {
  pending : list Task;
  heard   : list Event
}.

Inductive Input : Type :=
| Result (event : SpeechRecognitionEvent)
| FetchSettled (i : nat) (outcome : Completion Response)
| JsonSettled (i : nat) (outcome : Completion Json).

(** [event.results[event.results.length - 1][0].transcript.trim()] *)
Definition transcript (event : SpeechRecognitionEvent) : Completion string :=
  match results event !! (List.length (results event) - 1)%nat with
  | None => Throw (TypeError "0")
  | Some result =>
      match result !! 0%nat with
      | None => Throw (TypeError "transcript")
      | Some alternative => Normal (trim alternative)
      end
  end.

Definition reject (i : nat) (e : Error) (r : Relay) : Relay :=
  mkRelay (delete i (pending r)) (heard r ++ [UnhandledRejection e]).

(** The handler up to its first [await]. *)
Definition onresult (this : OpenAVR) (event : SpeechRecognitionEvent)
    (r : Relay) : Relay :=
  match transcript event with
  | Throw e => mkRelay (pending r) (heard r ++ [UnhandledRejection e])
  | Normal t =>
      let req := mkRequest t ("Bearer " ++ default "null" (witToken this)) in
      mkRelay (pending r ++ [AwaitingFetch req]) (heard r ++ [Fetch req])
  end.

(** The handler from its first [await] to its second. *)
Definition afterFetch (i : nat) (outcome : Completion Response)
    (r : Relay) : Relay :=
  match outcome with
  | Normal response =>
      mkRelay (<[i := AwaitingJson response]> (pending r)) (heard r)
  | Throw e => reject i e r
  end.

(** The handler from its second [await] to its end. *)
Definition afterJson (this : OpenAVR) (i : nat) (outcome : Completion Json)
    (r : Relay) : Relay :=
  match outcome with
  | Normal data =>
      match getProperty data "entities" with
      | Normal entities =>
          mkRelay (delete i (pending r))
                  (heard r ++ [VoiceCommand (onVoiceCommand this) entities])
      | Throw e => reject i e r
      end
  | Throw e => reject i e r
  end.

Definition step (this : OpenAVR) (r : Relay) (input : Input) : Relay :=
  match input with
  | Result event => onresult this event r
  | FetchSettled i outcome =>
      match pending r !! i with
      | Some (AwaitingFetch _) => afterFetch i outcome r
      | _ => r
      end
  | JsonSettled i outcome =>
      match pending r !! i with
      | Some (AwaitingJson _) => afterJson this i outcome r
      | _ => r
      end
  end.

Definition run (this : OpenAVR) (r : Relay) (inputs : list Input) : Relay :=
  fold_left (step this) inputs r.

(** The payloads forwarded to the application callback. *)
Fixpoint forwarded (events : list Event) : list Value :=
  match events with
  | [] => []
  | VoiceCommand _ entities :: rest => entities :: forwarded rest
  | _ :: rest => forwarded rest
  end.

(** The failures that were reported. *)
Fixpoint reported (events : list Event) : list Error :=
  match events with
  | [] => []
  | UnhandledRejection e :: rest => e :: reported rest
  | _ :: rest => reported rest
  end.

End Voice.

(* ================================================================== *)
(** * Vocabulary of the specification *)

(** The Euclidean distance of two joint positions, in binary64. *)
Definition distance3D (a b : XR.DOMPointReadOnly) : float :=
  let dx := (XR.x a - XR.x b)%float in
  let dy := (XR.y a - XR.y b)%float in
  let dz := (XR.z a - XR.z b)%float in
  PrimFloat.sqrt (dx * dx + dy * dy + dz * dz)%float.

(** The gaze direction of a view: the forward direction turned by the
    orientation of the view. *)
Definition gazeDirection (view : XR.View) : THREE.Vector3 float :=
  let o := XR.orientation (XR.transform view) in
  THREE.applyQuaternion forward
    (THREE.mkQuaternion (XR.x o) (XR.y o) (XR.z o) (XR.w o)).

(** The gesture tags handed to [onGesture], in order. *)
Fixpoint gestures (events : list Event) : list string :=
  match events with
  | [] => []
  | Gesture _ type :: rest => type :: gestures rest
  | _ :: rest => gestures rest
  end.

(** The number of clicks on the action button. *)
Fixpoint clicks (events : list Event) : nat :=
  match events with
  | [] => 0
  | Click _ :: rest => S (clicks rest)
  | _ :: rest => clicks rest
  end.

(** The number of times the next frame was requested. *)
Fixpoint rearmed (events : list Event) : nat :=
  match events with
  | [] => 0
  | RequestAnimationFrame :: rest => S (rearmed rest)
  | _ :: rest => rearmed rest
  end.

(** The colour an object is drawn with. *)
Definition colorOf (w : World) (o : THREE.Object3D) : option THREE.Color :=
  materials w !! THREE.material o.

(** Hits in order of increasing distance along the ray. *)
Definition nearestFirst (hits : list THREE.Intersection) : Prop :=
  StronglySorted
    (fun a b => (THREE.distance a <=? THREE.distance b)%float = true) hits.

(** The control panel has its action button. *)
Definition registered (this : OpenAVR) (btn : DOM.Element) : Prop :=
  exists gui, guiContainer this = Some gui /\
              DOM.querySelector gui "#actionBtn" = Some btn.

(** What [detectGestures] does once both joint queries have returned. *)
Definition afterQueries (this : OpenAVR)
    (indexPose thumbPose : option XR.JointPose) : M unit :=
  match indexPose, thumbPose with
  | Some indexPose, Some thumbPose =>
      if (distance3D (XR.position (XR.transform indexPose))
                     (XR.position (XR.transform thumbPose))
          <? pinchThreshold)%float
      then
        emit (Gesture (onGesture this) "pinch");;
        gui ← read "querySelector" (guiContainer this);
        btn ← read "click" (DOM.querySelector gui "#actionBtn");
        emit (Click btn)
      else mret tt
  | _, _ => mret tt
  end.

(** A joint position, for the examples. *)
Definition at_ (x y z : float) : XR.JointPose :=
  XR.mkPose (XR.mkTransform (XR.mkPoint x y z 1%float)
                            (XR.mkPoint 0%float 0%float 0%float 1%float)).

(* ================================================================== *)
(** * The scenarios of the specification, as data *)

Definition scenarioHand : XR.Hand :=
  <["thumb-tip" := 2%nat]> {["index-finger-tip" := 1%nat]}.

Definition scenarioPose : XR.ViewerPose :=
  XR.mkViewerPose
    [XR.mkPose (XR.mkTransform
       (XR.mkPoint 0%float 0x1.999999999999ap+0%float 0%float 1%float)
       (XR.mkPoint 0%float 0%float 0%float 1%float))].

(** A frame with one hand: the index tip at (0, 1, 0), the thumb tip at
    (0, 1, [thumbZ]) when it is tracked, and the given viewer pose. *)
Definition scenarioFrame (pose : option XR.ViewerPose)
    (thumbZ : option float) : XR.Frame :=
  XR.mkFrame
    (XR.mkSession [XR.mkInputSource (Some scenarioHand) None])
    (fun _ => pose)
    (fun joint _ =>
       match joint with
       | Some 1%nat => Normal (Some (at_ 0%float 1%float 0%float))
       | Some 2%nat =>
           Normal (option_map (fun z => at_ 0%float 1%float z) thumbZ)
       | _ => Throw (TypeError "joint")
       end).

(** The distances 0.01, 0.02 and 0.03 of the specification, as the binary64
    values the literals denote. *)
Definition z01 : float := 0x1.47ae147ae147bp-7%float.
Definition z02 : float := 0x1.47ae147ae147bp-6%float.
Definition z03 : float := 0x1.eb851eb851eb8p-6%float.

(** The world a page without speech recognition is left with by
    [new OpenAVR()]. *)
Definition scenarioWorld : World :=
  (constructor (mkWindow false false) None ∅).2.

Definition actionBtn : DOM.Element := DOM.mkElement "button" "actionBtn".

(* ================================================================== *)
(** * The input loop of [onXRFrame] *)

(** The body of [for (const inputSource of session.inputSources)]. *)
Definition perInputSource (frame : XR.Frame) (inputSource : XR.InputSource)
    : M unit :=
  match XR.hand inputSource with
  | Some hand => detectGestures hand frame
  | None => mret tt
  end;;
  match XR.gamepad inputSource with
  | Some _ => detectControllerInput inputSource
  | None => mret tt
  end.

(** Both joint queries of a hand return (a pose or [null]). *)
Definition handAnswers (this : OpenAVR) (frame : XR.Frame)
    (inputSource : XR.InputSource) : bool :=
  match XR.hand inputSource with
  | Some hand =>
      is_normal (XR.getJointPose frame (hand !! "index-finger-tip")
                   (xrReferenceSpace this))
      && is_normal (XR.getJointPose frame (hand !! "thumb-tip")
                      (xrReferenceSpace this))
  | None => true
  end.

(** A gamepad has a first button. *)
Definition hasFirstButton (inputSource : XR.InputSource) : bool :=
  match XR.gamepad inputSource with
  | Some gamepad => bool_decide (is_Some (XR.buttons gamepad !! 0%nat))
  | None => true
  end.

Definition wellFormed (this : OpenAVR) (frame : XR.Frame)
    (inputSource : XR.InputSource) : bool :=
  handAnswers this frame inputSource && hasFirstButton inputSource.

(** The gestures an input source stands for in a frame. *)
Definition handGestures (this : OpenAVR) (frame : XR.Frame)
    (hand : XR.Hand) : list string :=
  match XR.getJointPose frame (hand !! "index-finger-tip")
          (xrReferenceSpace this),
        XR.getJointPose frame (hand !! "thumb-tip")
          (xrReferenceSpace this) with
  | Normal (Some indexPose), Normal (Some thumbPose) =>
      if (distance3D (XR.position (XR.transform indexPose))
                     (XR.position (XR.transform thumbPose))
          <? pinchThreshold)%float
      then ["pinch"] else []
  | _, _ => []
  end.

Definition gamepadGestures (gamepad : XR.Gamepad) : list string :=
  match XR.buttons gamepad !! 0%nat with
  | Some button => if XR.pressed button then ["select"] else []
  | None => []
  end.

Definition sourceGestures (this : OpenAVR) (frame : XR.Frame)
    (inputSource : XR.InputSource) : list string :=
  from_option (handGestures this frame) [] (XR.hand inputSource)
  ++ from_option gamepadGestures [] (XR.gamepad inputSource).

(** A computation that only calls out: it leaves the instance and the
    materials alone and does not request the next frame. *)
Definition callsOnly {A} (m : M A) : Prop :=
  forall w, exists events,
    (m w).2 = mkWorld (self w) (materials w) (log w ++ events)
    /\ rearmed events = 0.

(** A gamepad without buttons, and a frame that carries nothing else. *)
Definition bareGamepad : XR.InputSource :=
  XR.mkInputSource None (Some (XR.mkGamepad [])).

Definition bareGamepadFrame : XR.Frame :=
  XR.mkFrame (XR.mkSession [bareGamepad]) (fun _ => None)
             (fun _ _ => Normal None).

(** The camera a view is mapped to. *)
Definition cameraOf (view : XR.View) : THREE.PerspectiveCamera :=
  let pos := XR.position (XR.transform view) in
  let ori := XR.orientation (XR.transform view) in
  THREE.mkCamera
    (THREE.mkVector3 (XR.x pos) (XR.y pos) (XR.z pos))
    (THREE.mkQuaternion (XR.x ori) (XR.y ori) (XR.z ori) (XR.w ori)).

(** The world after a material was given the highlight colour. *)
Definition highlighted (w : World) (m : THREE.MaterialRef) : World :=
  mkWorld (self w) (<[m := red]> (materials w)) (log w).

(** A pose without views. *)
Definition emptyPose : XR.ViewerPose := XR.mkViewerPose [].

(** Two ray casters for the examples: one that never hits, and one that hits
    every child of the scene at distance 2, in scene order. *)
Definition noHits (origin direction : THREE.Vector3 float)
    (children : list THREE.Object3D) : list THREE.Intersection := [].

Definition everyChild (origin direction : THREE.Vector3 float)
    (children : list THREE.Object3D) : list THREE.Intersection :=
  map (THREE.mkIntersection 2%float) children.

(** An utterance, a response and two bodies for the examples of the relay. *)
Definition utterance (text : string) : Voice.SpeechRecognitionEvent :=
  Voice.mkSpeechEvent [[text]].

Definition intentBody : Json :=
  JObject [("text", JString "change scene");
           ("entities", JObject [("intent", JArray [JString "change_scene"])])].

Definition intentEntities : Value :=
  Val (JObject [("intent", JArray [JString "change_scene"])]).

Definition idle : Voice.Relay := Voice.mkRelay [] [].

(** A unit quaternion over the reals: the half turn about the Y axis. *)
Definition halfTurnY : THREE.Quaternion R :=
  THREE.mkQuaternion 0%R 1%R 0%R 0%R.

Definition forwardR : THREE.Vector3 R := THREE.mkVector3 0%R 0%R (- 1)%R.

(* ================================================================== *)
(** * Session start: [initXR] *)

Module Init.

(** Why the promise returned by [initXR] is rejected. *)
Inductive Reason : Type :=
| Message (text : string)   (* [new Error(text)], thrown by the method *)
| Device (name : string).   (* a promise or a constructor of the page failed *)

Inductive Settled (A : Type) : Type :=
| Fulfilled (a : A)
| Rejected (r : Reason).
Arguments Fulfilled {A} a.
Arguments Rejected {A} r.

Definition is_fulfilled {A} (s : Settled A) : bool :=
  match s with Fulfilled _ => true | Rejected _ => false end.

Record SessionHandle : Type := mkHandle {
  sessionId : nat;
  requestReferenceSpace : string -> Settled XR.ReferenceSpace
}.

Record XRSystem : Type := mkXRSystem {
  isSessionSupported : string -> Settled bool;
  requestSession : string -> list string -> Settled SessionHandle
}.

(** The page as [initXR] meets it: [navigator.xr], the result of
    [canvas.getContext('webgl', { xrCompatible: true })], and whether
    [updateRenderState({ baseLayer: new XRWebGLLayer(session, gl) })] goes
    through. *)
Record Page : Type := mkPage {
  xr         : option XRSystem;
  getContext : option nat;
  makeLayer  : nat -> option nat -> Settled unit
}.

(** The calls [initXR] makes to the page, in order. *)
Inductive Call : Type :=
| IsSessionSupported (type : string)
| RequestSession (type : string) (optionalFeatures : list string)
| GetContext
| UpdateRenderState
| RequestReferenceSpace (type : string)
| FirstFrame.               (* xrSession.requestAnimationFrame(onXRFrame) *)

(** The instance with the two fields only [initXR] writes. *)
Record Instance : Type := mkInstance {
  core      : OpenAVR;
  xrSession : option nat;
  gl        : option nat
}.

Definition sessionTypeOf (mode : string) : string :=
  if String.eqb mode "VR" then "immersive-vr" else "immersive-ar".

Definition with_xrReferenceSpace (this : OpenAVR)
    (space : option XR.ReferenceSpace) : OpenAVR :=
  mkOpenAVR (mode this) (renderer this) (onGesture this) (onVoiceCommand this)
    (witToken this) space (scene this) (camera this) (guiContainer this).

Definition initXR (page : Page) (this : Instance)
    : Settled unit * Instance * list Call :=
  match xr page with
  | None => (Rejected (Message "WebXR not supported"), this, [])
  | Some xr =>
      let sessionType := sessionTypeOf (mode (core this)) in
      let c1 := [IsSessionSupported sessionType] in
      match isSessionSupported xr sessionType with
      | Rejected r => (Rejected r, this, c1)
      | Fulfilled false =>
          (Rejected (Message (mode (core this) ++ " not supported")), this, c1)
      | Fulfilled true =>
          let c2 :=
            c1 ++ [RequestSession sessionType
                     ["local-floor"; "hand-tracking"]] in
          match requestSession xr sessionType
                  ["local-floor"; "hand-tracking"] with
          | Rejected r => (Rejected r, this, c2)
          | Fulfilled session =>
              let this1 :=
                mkInstance (core this) (Some (sessionId session))
                           (getContext page) in
              let c3 := c2 ++ [GetContext] in
              match makeLayer page (sessionId session) (getContext page) with
              | Rejected r => (Rejected r, this1, c3)
              | Fulfilled _ =>
                  let c4 :=
                    c3 ++ [UpdateRenderState;
                           RequestReferenceSpace "local-floor"] in
                  match requestReferenceSpace session "local-floor" with
                  | Rejected r => (Rejected r, this1, c4)
                  | Fulfilled space =>
                      (Fulfilled tt,
                       mkInstance
                         (with_xrReferenceSpace (core this) (Some space))
                         (Some (sessionId session)) (getContext page),
                       c4 ++ [FirstFrame])
                  end
              end
          end
      end
  end.

(** The session types a list of calls names. *)
Fixpoint sessionTypes (calls : list Call) : list string :=
  match calls with
  | [] => []
  | IsSessionSupported t :: rest => t :: sessionTypes rest
  | RequestSession t _ :: rest => t :: sessionTypes rest
  | _ :: rest => sessionTypes rest
  end.

(** How often the frame loop was started. *)
Fixpoint started (calls : list Call) : nat :=
  match calls with
  | [] => 0
  | FirstFrame :: rest => S (started rest)
  | _ :: rest => started rest
  end.

(** How often a session was requested. *)
Fixpoint sessionsRequested (calls : list Call) : nat :=
  match calls with
  | [] => 0
  | RequestSession _ _ :: rest => S (sessionsRequested rest)
  | _ :: rest => sessionsRequested rest
  end.

(** A freshly constructed instance. *)
Definition fresh_instance (w : World) : Instance :=
  mkInstance (self w) None None.

End Init.

(* ================================================================== *)
(** * The frame loop as the device drives it *)

Section Driver.

Variable intersectObjects :
  THREE.Vector3 float -> THREE.Vector3 float -> list THREE.Object3D ->
  list THREE.Intersection.

(** The device calls the frame callback once for every request: a frame is
    delivered only if the frame before it requested the next one, that is, if
    it completed. *)
Fixpoint runFrames (frames : list (float * XR.Frame)) (w : World)
    : Completion unit * World :=
  match frames with
  | [] => (Normal tt, w)
  | (time, frame) :: rest =>
      match onXRFrame intersectObjects time frame w with
      | (Normal _, w') => runFrames rest w'
      | (Throw e, w') => (Throw e, w')
      end
  end.

End Driver.

(** The events of the input loop: gestures ['pinch'] and ['select'] and
    clicks, where a click comes directly after a pinch and a pinch is
    directly followed by a click, unless the list ends with it.  [afterPinch]
    tells whether the event before was a pinch. *)
Fixpoint inputProtocol (afterPinch : bool) (events : list Event) : bool :=
  match events with
  | [] => true
  | Gesture _ type :: rest =>
      negb afterPinch
      && (String.eqb type "pinch" || String.eqb type "select")
      && inputProtocol (String.eqb type "pinch") rest
  | Click _ :: rest => afterPinch && inputProtocol false rest
  | _ :: rest => false
  end.

(** Whether a list of events ends with a pinch. *)
Fixpoint endsWithPinch (afterPinch : bool) (events : list Event) : bool :=
  match events with
  | [] => afterPinch
  | Gesture _ type :: rest => endsWithPinch (String.eqb type "pinch") rest
  | _ :: rest => endsWithPinch false rest
  end.

(** A computation of the input loop: it leaves the instance and the
    materials alone, its events follow the protocol, and when it completes
    no pinch is left without its click. *)
Definition inputOnly {A} (m : M A) : Prop :=
  forall w, exists events,
    (m w).2 = mkWorld (self w) (materials w) (log w ++ events)
    /\ inputProtocol false events = true
    /\ (is_normal (m w).1 = true -> endsWithPinch false events = false).

(** Every material kept its colour or turned to the highlight colour. *)
Definition onlyHighlighted (before after : World) : Prop :=
  forall m, materials after !! m = materials before !! m
            \/ (materials after !! m = Some red).

(* ================================================================== *)
(** * The page of the example *)

Module Example.

(** [v[0]] for a value that is neither [undefined] nor [null]. *)
Definition first (v : Json) : Value :=
  match v with
  | JArray (item :: _) => Val item
  | JString (String c _) => Val (JString (String c ""))
  | JObject props =>
      match assoc "0" props with Some item => Val item | None => Undefined end
  | _ => Undefined
  end.

(** [v.name], for a name that is not built in, on a value that is neither
    [undefined] nor [null]. *)
Definition member (v : Json) (name : string) : Value :=
  match v with
  | JObject props =>
      match assoc name props with Some x => Val x | None => Undefined end
  | _ => Undefined
  end.

(** [v?.step]: [undefined] on [undefined] and [null]. *)
Definition optional (v : Value) (step : Json -> Value) : Value :=
  match v with
  | Undefined | Val JNull => Undefined
  | Val j => step j
  end.

(** [onGesture] of the example: the lines it writes to the console. *)
Definition onGesture (type : string) : list string :=
  (if String.eqb type "pinch" then ["Pinch gesture detected"] else [])
  ++ (if String.eqb type "select" then ["Controller select detected"] else []).

(** [onVoiceCommand] of the example:
    [entities.intent?.[0]?.value === 'change_scene']. *)
Definition onVoiceCommand (entities : Value) : Completion (list string) :=
  match entities with
  | Undefined | Val JNull => Throw (TypeError "intent")
  | Val e =>
      let value :=
        optional (optional (member e "intent") first)
                 (fun item => member item "value") in
      match value with
      | Val (JString s) =>
          if String.eqb s "change_scene"
          then Normal ["Voice intent: Change scene"] else Normal []
      | _ => Normal []
      end
  end.

Definition options : Options :=
  mkOptions (Some "AR") (Some (AppFunction "renderer"))
            (Some (AppFunction "onGesture"))
            (Some (AppFunction "onVoiceCommand"))
            (Some "YOUR_WIT_AI_TOKEN").

End Example.

(** A page with WebXR that supports the asked session and hands out the
    reference space 7, and a page without WebXR. *)
Definition grantingPage : Init.Page :=
  Init.mkPage
    (Some (Init.mkXRSystem
             (fun _ => Init.Fulfilled true)
             (fun _ _ =>
                Init.Fulfilled
                  (Init.mkHandle 1 (fun _ => Init.Fulfilled 7%nat)))))
    (Some 2%nat)
    (fun _ _ => Init.Fulfilled tt).

Definition barePage : Init.Page :=
  Init.mkPage None None (fun _ _ => Init.Fulfilled tt).

(** The events a world has logged since an earlier one. *)
Definition since (before after : World) : list Event :=
  drop (List.length (log before)) (log after).

(** The hits of the gaze ray of a view: the ray starts at the position the
    pose mapper has just written to the camera. *)
Definition gazeHits
    (intersectObjects :
       THREE.Vector3 float -> THREE.Vector3 float -> list THREE.Object3D ->
       list THREE.Intersection)
    (this : OpenAVR) (view : XR.View) : list THREE.Intersection :=
  intersectObjects (THREE.cam_position (cameraOf view)) (gazeDirection view)
                   (scene this).

(** The world in which the input loop of a frame starts, when the viewer
    pose has a first view. *)
Definition posed
    (intersectObjects :
       THREE.Vector3 float -> THREE.Vector3 float -> list THREE.Object3D ->
       list THREE.Intersection)
    (w : World) (view : XR.View) : World :=
  mkWorld (with_camera (self w) (cameraOf view))
    (match gazeHits intersectObjects (self w) view with
     | first :: _ =>
         <[THREE.material (THREE.object first) := red]> (materials w)
     | [] => materials w
     end)
    (log w ++ [SetSize; SetAnimationLoop]).

(** The number of pinches among gesture tags. *)
Definition pinches (events : list Event) : nat :=
  count_occ string_dec (gestures events) "pinch".

(** A frame of the specification's scenario, with its time stamp. *)
Definition scenarioTick (thumbZ : option float) : float * XR.Frame :=
  (0%float, scenarioFrame (Some scenarioPose) thumbZ).

(** A joint position has a coordinate that is not a number. *)
Definition hasNaN (p : XR.DOMPointReadOnly) : bool :=
  PrimFloat.is_nan (XR.x p) || PrimFloat.is_nan (XR.y p)
  || PrimFloat.is_nan (XR.z p).

(** The world of the scenario after the page removed the action button from
    the control panel. *)
Definition strippedWorld : World :=
  mkWorld
    (with_guiContainer (self scenarioWorld)
       (Some (DOM.mkContainer "openavr-gui"
                [DOM.mkElement "h3" ""; DOM.mkElement "input" "slider"])))
    (materials scenarioWorld) (log scenarioWorld).

(** A pose with two views, and their first views. *)
Definition leftEye : XR.View :=
  XR.mkPose (XR.mkTransform
    (XR.mkPoint 0%float 0x1.999999999999ap+0%float 0%float 1%float)
    (XR.mkPoint 0%float 0%float 0%float 1%float)).

Definition rightEye : XR.View :=
  XR.mkPose (XR.mkTransform
    (XR.mkPoint 1%float 2%float 3%float 1%float)
    (XR.mkPoint 0%float 1%float 0%float 0%float)).

Definition twoViews : XR.ViewerPose := XR.mkViewerPose [rightEye; leftEye].

(** A page that already has a blue material. *)
Definition paintedStore : gmap THREE.MaterialRef THREE.Color :=
  {[ 0%nat := 0x0000ff%Z ]}.




(** The body the classification service answers a bad token with, and the
    entities of a recognised intent. *)
Definition errorBody : Json :=
  JObject [("error", JString "Bad auth"); ("code", JString "no-auth")].

Definition sceneIntent : list (string * Json) :=
  [("intent", JArray [JObject [("value", JString "change_scene")]])].


(** The world of the scenario once [initXR] was fulfilled on the granting
    page. *)
Definition startedWorld : World :=
  mkWorld
    (Init.core (Init.initXR grantingPage
                  (Init.fresh_instance scenarioWorld)).1.2)
    (materials scenarioWorld) (log scenarioWorld).

(* ================================================================== *)
(** * Properties *)

(** ** Bookkeeping on the log *)

Lemma gestures_app (a b : list Event) :
  gestures (a ++ b) = gestures a ++ gestures b.
Proof.
  induction a as [|e a IH]; [reflexivity|].
  destruct e; simpl; rewrite IH; reflexivity.
Qed.

Lemma clicks_app (a b : list Event) : clicks (a ++ b) = clicks a + clicks b.
Proof.
  induction a as [|e a IH]; [reflexivity|].
  destruct e; simpl; rewrite IH; reflexivity.
Qed.

Lemma rearmed_app (a b : list Event) : rearmed (a ++ b) = rearmed a + rearmed b.
Proof.
  induction a as [|e a IH]; [reflexivity|].
  destruct e; simpl; rewrite IH; reflexivity.
Qed.

(** ** The gesture detector *)

Lemma detectGestures_queries hand frame w indexPose thumbPose :
  XR.getJointPose frame (hand !! "index-finger-tip")
    (xrReferenceSpace (self w)) = Normal indexPose ->
  XR.getJointPose frame (hand !! "thumb-tip")
    (xrReferenceSpace (self w)) = Normal thumbPose ->
  detectGestures hand frame w = afterQueries (self w) indexPose thumbPose w.
Proof.
  intros Hi Ht. unfold detectGestures, afterQueries.
  unfold mbind, M_bind, getThis, lift. cbn.
  rewrite Hi, Ht.
  destruct indexPose, thumbPose; reflexivity.
Qed.

(** A pinch always reaches [onGesture]; whether the click follows depends on
    the control panel. *)
Lemma pinch_branch_gestures this w :
  gestures (log ((emit (Gesture (onGesture this) "pinch");;
                  gui ← read "querySelector" (guiContainer this);
                  btn ← read "click" (DOM.querySelector gui "#actionBtn");
                  emit (Click btn)) w).2)
  = gestures (log w) ++ ["pinch"].
Proof.
  unfold mbind, M_bind, emit, read, throw, mret, M_ret.
  destruct (guiContainer this) as [gui|]; cbn -[DOM.querySelector];
    [destruct (DOM.querySelector gui "#actionBtn") as [btn|]; cbn|];
    rewrite ?gestures_app; cbn;
    rewrite <- ?app_assoc, ?app_nil_r; reflexivity.
Qed.

(** C1: when both joint poses resolve, [detectGestures] hands exactly one
    ['pinch'] to [onGesture] if the distance of the two joint positions is
    strictly below 0.02 and none otherwise; at distance 0.02 itself there is
    no pinch. *)
Theorem detectGestures_pinch_iff hand frame w indexPose thumbPose :
  XR.getJointPose frame (hand !! "index-finger-tip")
    (xrReferenceSpace (self w)) = Normal (Some indexPose) ->
  XR.getJointPose frame (hand !! "thumb-tip")
    (xrReferenceSpace (self w)) = Normal (Some thumbPose) ->
  let d := distance3D (XR.position (XR.transform indexPose))
                      (XR.position (XR.transform thumbPose)) in
  let before := gestures (log w) in
  let after := gestures (log (detectGestures hand frame w).2) in
  after = before ++ (if (d <? pinchThreshold)%float then ["pinch"] else [])
  /\ (after = before ++ ["pinch"] <-> (d <? pinchThreshold)%float = true)
  /\ (after = before <-> (d <? pinchThreshold)%float = false)
  /\ (d = pinchThreshold -> after = before).
Proof.
  intros Hi Ht d before after.
  assert (E : after = before ++
               (if (d <? pinchThreshold)%float then ["pinch"] else [])).
  { subst after before. rewrite (detectGestures_queries _ _ _ _ _ Hi Ht).
    unfold afterQueries. fold d.
    destruct (d <? pinchThreshold)%float.
    - apply pinch_branch_gestures.
    - cbn. rewrite app_nil_r. reflexivity. }
  split; [exact E|].
  assert (Hne : before ++ ["pinch"] <> before).
  { intros Heq. apply (f_equal List.length) in Heq.
    rewrite List.length_app in Heq. simpl in Heq. lia. }
  repeat split.
  - intros Hp. rewrite E in Hp.
    destruct (d <? pinchThreshold)%float; [reflexivity|].
    rewrite app_nil_r in Hp. symmetry in Hp. contradiction.
  - intros Hd. rewrite E, Hd. reflexivity.
  - intros Hp. rewrite E in Hp.
    destruct (d <? pinchThreshold)%float; [|reflexivity].
    contradiction.
  - intros Hd. rewrite E, Hd. apply app_nil_r.
  - intros Hd. rewrite E, Hd. cbn. apply app_nil_r.
Qed.

Lemma detectGestures_pinch_iff_witness :
  gestures (log (detectGestures scenarioHand (scenarioFrame None (Some z01))
                   scenarioWorld).2)
  = gestures (log scenarioWorld) ++ ["pinch"].
Proof.
  apply (proj1 (detectGestures_pinch_iff scenarioHand
                  (scenarioFrame None (Some z01)) scenarioWorld
                  (at_ 0 1 0) (at_ 0 1 z01) eq_refl eq_refl)).
Defined.

(** The three distances named by the specification: 0.01 pinches, 0.02 and
    0.03 do not. *)
Example pinch_at_given_distances :
  distance3D (XR.position (XR.transform (at_ 0 1 0)))
             (XR.position (XR.transform (at_ 0 1 z01))) = z01
  /\ distance3D (XR.position (XR.transform (at_ 0 1 0)))
                (XR.position (XR.transform (at_ 0 1 z02))) = z02
  /\ map (fun z => gestures (log (detectGestures scenarioHand
                      (scenarioFrame None (Some z)) scenarioWorld).2))
         [z01; z02; z03]
     = [["pinch"]; []; []].
Proof. repeat split; vm_compute; reflexivity. Qed.

(** No debounce: a pinch held over two frames is reported in both. *)
Example pinch_every_frame :
  let frame := scenarioFrame None (Some z01) in
  let w1 := (detectGestures scenarioHand frame scenarioWorld).2 in
  let w2 := (detectGestures scenarioHand frame w1).2 in
  gestures (log w2) = ["pinch"; "pinch"] /\ clicks (log w2) = 2.
Proof. vm_compute. split; reflexivity. Qed.

(** C8: when both joint poses resolve and their distance is strictly below
    the threshold, [detectGestures] hands ['pinch'] to [onGesture] and then
    clicks the action button of the control panel, once. *)
Theorem pinch_clicks_once hand frame w indexPose thumbPose btn :
  XR.getJointPose frame (hand !! "index-finger-tip")
    (xrReferenceSpace (self w)) = Normal (Some indexPose) ->
  XR.getJointPose frame (hand !! "thumb-tip")
    (xrReferenceSpace (self w)) = Normal (Some thumbPose) ->
  (distance3D (XR.position (XR.transform indexPose))
              (XR.position (XR.transform thumbPose))
   <? pinchThreshold)%float = true ->
  registered (self w) btn ->
  let w' := (detectGestures hand frame w).2 in
  detectGestures hand frame w = (Normal tt, w')
  /\ self w' = self w
  /\ materials w' = materials w
  /\ log w' = log w ++ [Gesture (onGesture (self w)) "pinch"; Click btn]
  /\ clicks (log w') = clicks (log w) + 1
  /\ gestures (log w') = gestures (log w) ++ ["pinch"].
Proof.
  intros Hi Ht Hd (gui & Hgui & Hbtn) w'. subst w'.
  rewrite (detectGestures_queries _ _ _ _ _ Hi Ht).
  unfold afterQueries. rewrite Hd.
  unfold mbind, M_bind, emit, read, mret, M_ret.
  rewrite Hgui. cbn -[DOM.querySelector]. rewrite Hbtn. cbn.
  rewrite <- app_assoc. cbn.
  rewrite clicks_app, gestures_app. cbn.
  repeat split; reflexivity.
Qed.

Lemma pinch_clicks_once_witness :
  log (detectGestures scenarioHand (scenarioFrame None (Some z01))
         scenarioWorld).2
  = log scenarioWorld ++ [Gesture Noop "pinch"; Click actionBtn].
Proof.
  apply (pinch_clicks_once scenarioHand (scenarioFrame None (Some z01))
           scenarioWorld (at_ 0 1 0) (at_ 0 1 z01) actionBtn
           eq_refl eq_refl eq_refl).
  exists (DOM.mkContainer "openavr-gui"
            [DOM.mkElement "h3" ""; actionBtn; DOM.mkElement "input" "slider"]).
  split; reflexivity.
Defined.

(** ** Computations that only call out *)

Lemma world_eta w : mkWorld (self w) (materials w) (log w) = w.
Proof. destruct w; reflexivity. Qed.

Lemma callsOnly_ret {A} (a : A) : callsOnly (mret a).
Proof. intros w. exists []. cbn. rewrite app_nil_r, world_eta. auto. Qed.

Lemma callsOnly_throw {A} e : callsOnly (@throw A e).
Proof. intros w. exists []. cbn. rewrite app_nil_r, world_eta. auto. Qed.

Lemma callsOnly_lift {A} (c : Completion A) : callsOnly (lift c).
Proof. intros w. exists []. cbn. rewrite app_nil_r, world_eta. auto. Qed.

Lemma callsOnly_getThis : callsOnly getThis.
Proof. intros w. exists []. cbn. rewrite app_nil_r, world_eta. auto. Qed.

Lemma callsOnly_read {A} name (o : option A) : callsOnly (read name o).
Proof. destruct o; [apply callsOnly_ret | apply callsOnly_throw]. Qed.

Lemma callsOnly_emit e : rearmed [e] = 0 -> callsOnly (emit e).
Proof. intros He w. exists [e]. auto. Qed.

Lemma callsOnly_bind {A B} (m : M A) (k : A -> M B) :
  callsOnly m -> (forall a, callsOnly (k a)) -> callsOnly (m ≫= k).
Proof.
  intros Hm Hk w. unfold mbind, M_bind.
  destruct (Hm w) as (e1 & E1 & R1).
  destruct (m w) as [[a|err] w1]; cbn in E1; subst w1.
  - destruct (Hk a (mkWorld (self w) (materials w) (log w ++ e1)))
      as (e2 & E2 & R2).
    exists (e1 ++ e2). rewrite E2. cbn.
    rewrite <- app_assoc, rearmed_app, R1, R2. auto.
  - exists e1. auto.
Qed.

Create HintDb calls.

#[local] Hint Resolve callsOnly_ret callsOnly_throw callsOnly_lift
  callsOnly_getThis callsOnly_read callsOnly_emit : calls.

Lemma callsOnly_detectGestures hand frame :
  callsOnly (detectGestures hand frame).
Proof.
  unfold detectGestures.
  repeat (apply callsOnly_bind; [auto with calls | intros ?]).
  destruct a0, a1; auto with calls.
  destruct (_ <? _)%float; auto with calls.
  repeat (apply callsOnly_bind; [auto with calls | intros ?]).
  auto with calls.
Qed.

Lemma callsOnly_detectControllerInput src :
  callsOnly (detectControllerInput src).
Proof.
  unfold detectControllerInput.
  repeat (apply callsOnly_bind; [auto with calls | intros ?]).
  destruct (XR.pressed _); auto with calls.
Qed.

Lemma callsOnly_perInputSource frame src : callsOnly (perInputSource frame src).
Proof.
  unfold perInputSource. apply callsOnly_bind.
  - destruct (XR.hand src); [apply callsOnly_detectGestures | auto with calls].
  - intros _. destruct (XR.gamepad src);
      [apply callsOnly_detectControllerInput | auto with calls].
Qed.

Lemma callsOnly_forOf {A} (l : list A) body :
  (forall a, callsOnly (body a)) -> callsOnly (forOf l body).
Proof.
  intros Hb. induction l as [|a l IH]; cbn; [auto with calls|].
  apply callsOnly_bind; auto.
Qed.

(** ** One input source *)

Lemma detectGestures_answers hand frame w btn indexPose thumbPose :
  XR.getJointPose frame (hand !! "index-finger-tip")
    (xrReferenceSpace (self w)) = Normal indexPose ->
  XR.getJointPose frame (hand !! "thumb-tip")
    (xrReferenceSpace (self w)) = Normal thumbPose ->
  registered (self w) btn ->
  exists events,
    detectGestures hand frame w
    = (Normal tt, mkWorld (self w) (materials w) (log w ++ events))
    /\ gestures events = handGestures (self w) frame hand
    /\ rearmed events = 0.
Proof.
  intros Hi Ht (gui & Hgui & Hbtn).
  rewrite (detectGestures_queries _ _ _ _ _ Hi Ht).
  unfold handGestures. rewrite Hi, Ht. unfold afterQueries.
  destruct indexPose as [ip|], thumbPose as [tp|];
    try solve [exists []; cbn; rewrite app_nil_r, world_eta; auto].
  destruct (_ <? _)%float.
  - exists [Gesture (onGesture (self w)) "pinch"; Click btn].
    unfold mbind, M_bind, emit, read, mret, M_ret.
    rewrite Hgui. cbn -[DOM.querySelector]. rewrite Hbtn. cbn.
    rewrite <- app_assoc. auto.
  - exists []. cbn. rewrite app_nil_r, world_eta. auto.
Qed.

Lemma detectControllerInput_button src gamepad button w :
  XR.gamepad src = Some gamepad ->
  XR.buttons gamepad !! 0%nat = Some button ->
  detectControllerInput src w
  = (Normal tt,
     mkWorld (self w) (materials w)
       (log w ++ if XR.pressed button
                 then [Gesture (onGesture (self w)) "select"] else [])).
Proof.
  intros Hg Hb. unfold detectControllerInput, mbind, M_bind, read.
  rewrite Hg. cbn. rewrite Hb. cbn.
  destruct (XR.pressed button); cbn; [reflexivity|].
  rewrite app_nil_r, world_eta. reflexivity.
Qed.

Lemma detectControllerInput_no_button src gamepad w :
  XR.gamepad src = Some gamepad ->
  XR.buttons gamepad !! 0%nat = None ->
  detectControllerInput src w = (Throw (TypeError "pressed"), w).
Proof.
  intros Hg Hb. unfold detectControllerInput, mbind, M_bind, read.
  rewrite Hg. cbn. rewrite Hb. reflexivity.
Qed.

Lemma perInputSource_wellFormed frame src w btn :
  registered (self w) btn ->
  wellFormed (self w) frame src = true ->
  exists events,
    perInputSource frame src w
    = (Normal tt, mkWorld (self w) (materials w) (log w ++ events))
    /\ gestures events = sourceGestures (self w) frame src
    /\ rearmed events = 0.
Proof.
  intros Hreg Hwf. apply andb_prop in Hwf as [Hh Hp].
  unfold handAnswers in Hh. unfold hasFirstButton in Hp.
  unfold perInputSource, sourceGestures.
  assert (Hhand : exists e1,
    match XR.hand src with
    | Some hand => detectGestures hand frame
    | None => mret tt
    end w = (Normal tt, mkWorld (self w) (materials w) (log w ++ e1))
    /\ gestures e1 = from_option (handGestures (self w) frame) [] (XR.hand src)
    /\ rearmed e1 = 0).
  { destruct (XR.hand src) as [hand|]; cbn.
    - apply andb_prop in Hh as [Hi Ht].
      destruct (XR.getJointPose frame (hand !! "index-finger-tip") _)
        as [ip|] eqn:Ei; [|discriminate].
      destruct (XR.getJointPose frame (hand !! "thumb-tip") _)
        as [tp|] eqn:Et; [|discriminate].
      eapply detectGestures_answers; eauto.
    - exists []. rewrite app_nil_r, world_eta. auto. }
  destruct Hhand as (e1 & E1 & G1 & R1).
  unfold mbind, M_bind. rewrite E1, <- G1.
  destruct (XR.gamepad src) as [gamepad|] eqn:Eg; cbn.
  - apply bool_decide_eq_true in Hp as [button Hb].
    rewrite (detectControllerInput_button _ _ _ _ Eg Hb). cbn.
    exists (e1 ++ if XR.pressed button
                  then [Gesture (onGesture (self w)) "select"] else []).
    rewrite <- app_assoc, gestures_app, rearmed_app, R1.
    unfold gamepadGestures. rewrite Hb.
    destruct (XR.pressed button); auto.
  - exists e1. rewrite app_nil_r. auto.
Qed.


Lemma perInputSource_no_button frame src gamepad w btn :
  registered (self w) btn ->
  handAnswers (self w) frame src = true ->
  XR.gamepad src = Some gamepad ->
  XR.buttons gamepad !! 0%nat = None ->
  exists events,
    perInputSource frame src w
    = (Throw (TypeError "pressed"),
       mkWorld (self w) (materials w) (log w ++ events))
    /\ gestures events
       = from_option (handGestures (self w) frame) [] (XR.hand src)
    /\ rearmed events = 0.
Proof.
  intros Hreg Hh Hg Hb. unfold perInputSource, mbind, M_bind.
  assert (Hhand : exists e1,
    match XR.hand src with
    | Some hand => detectGestures hand frame
    | None => mret tt
    end w = (Normal tt, mkWorld (self w) (materials w) (log w ++ e1))
    /\ gestures e1
       = from_option (handGestures (self w) frame) [] (XR.hand src)
    /\ rearmed e1 = 0).
  { unfold handAnswers in Hh. destruct (XR.hand src) as [hand|]; cbn.
    - apply andb_prop in Hh as [Hi Ht].
      destruct (XR.getJointPose frame (hand !! "index-finger-tip") _)
        as [ip|] eqn:Ei; [|discriminate].
      destruct (XR.getJointPose frame (hand !! "thumb-tip") _)
        as [tp|] eqn:Et; [|discriminate].
      destruct (detectGestures_answers _ _ _ _ _ _ Ei Et Hreg)
        as (e1 & E1 & G1 & R1).
      eauto.
    - exists []. rewrite app_nil_r, world_eta. auto. }
  destruct Hhand as (e1 & E1 & G1 & R1). rewrite E1, Hg.
  rewrite (detectControllerInput_no_button _ _ _ Hg Hb). eauto.
Qed.

(** ** The loop over the input sources *)

Lemma forOf_app {A} (l1 l2 : list A) body w :
  forOf (l1 ++ l2) body w = (forOf l1 body;; forOf l2 body) w.
Proof.
  revert w. induction l1 as [|a l1 IH]; intros w; cbn.
  - reflexivity.
  - unfold mbind, M_bind in *. destruct (body a w) as [[[]|e] w1]; auto.
Qed.

Lemma forOf_wellFormed frame sources btn :
  forall w,
    registered (self w) btn ->
    Forall (fun src => wellFormed (self w) frame src = true) sources ->
    exists events,
      forOf sources (perInputSource frame) w
      = (Normal tt, mkWorld (self w) (materials w) (log w ++ events))
      /\ gestures events
         = concat (map (sourceGestures (self w) frame) sources)
      /\ rearmed events = 0.
Proof.
  induction sources as [|src sources IH]; intros w Hreg Hwf.
  - exists []. cbn. rewrite app_nil_r, world_eta. auto.
  - inversion Hwf as [|? ? Hsrc Hrest]; subst.
    destruct (perInputSource_wellFormed frame src w btn Hreg Hsrc)
      as (e1 & E1 & G1 & R1).
    cbn. unfold mbind, M_bind. rewrite E1.
    destruct (IH (mkWorld (self w) (materials w) (log w ++ e1)) Hreg Hrest)
      as (e2 & E2 & G2 & R2).
    rewrite E2. cbn. exists (e1 ++ e2).
    rewrite <- app_assoc, gestures_app, rearmed_app, G1, G2, R1, R2. auto.
Qed.

Lemma forOf_first_malformed frame before src after gamepad btn w :
  registered (self w) btn ->
  Forall (fun s => wellFormed (self w) frame s = true) before ->
  handAnswers (self w) frame src = true ->
  XR.gamepad src = Some gamepad ->
  XR.buttons gamepad !! 0%nat = None ->
  exists events,
    forOf (before ++ src :: after) (perInputSource frame) w
    = (Throw (TypeError "pressed"),
       mkWorld (self w) (materials w) (log w ++ events))
    /\ gestures events
       = concat (map (sourceGestures (self w) frame) before)
         ++ from_option (handGestures (self w) frame) [] (XR.hand src)
    /\ rearmed events = 0.
Proof.
  intros Hreg Hwf Hh Hg Hb. rewrite forOf_app.
  destruct (forOf_wellFormed frame before btn w Hreg Hwf)
    as (e1 & E1 & G1 & R1).
  unfold mbind, M_bind. rewrite E1. cbn.
  destruct (perInputSource_no_button frame src gamepad
              (mkWorld (self w) (materials w) (log w ++ e1)) btn
              Hreg Hh Hg Hb) as (e2 & E2 & G2 & R2).
  unfold mbind, M_bind. rewrite E2. cbn.
  exists (e1 ++ e2).
  rewrite <- app_assoc, gestures_app, rearmed_app, G1, G2, R1, R2. auto.
Qed.

(** ** The frame callback *)

Section Frame.

Variable intersectObjects :
  THREE.Vector3 float -> THREE.Vector3 float -> list THREE.Object3D ->
  list THREE.Intersection.

Lemma onXRFrame_no_pose time frame w :
  XR.getViewerPose frame (xrReferenceSpace (self w)) = None ->
  onXRFrame intersectObjects time frame w
  = (emit SetSize;; emit SetAnimationLoop;;
     forOf (XR.inputSources (XR.session frame)) (perInputSource frame);;
     emit RequestAnimationFrame) w.
Proof.
  intros Hpose. unfold onXRFrame, mbind, M_bind, getThis. cbn.
  rewrite Hpose. reflexivity.
Qed.

End Frame.

(** A hand-only input source whose tracking is lost can be dropped from the
    loop: the frame goes on as if it were not there. *)
Lemma forOf_skip frame before src after w :
  perInputSource frame src
    (forOf before (perInputSource frame) w).2
  = (Normal tt, (forOf before (perInputSource frame) w).2) ->
  forOf (before ++ src :: after) (perInputSource frame) w
  = forOf (before ++ after) (perInputSource frame) w.
Proof.
  intros Hskip. rewrite !forOf_app. unfold mbind, M_bind.
  destruct (forOf before (perInputSource frame) w) as [[[]|e] w1];
    [|reflexivity].
  cbn in Hskip |- *. unfold mbind, M_bind. rewrite Hskip. reflexivity.
Qed.

(** C7: when at least one of the two joint poses is unresolved,
    [detectGestures] returns normally and leaves the world as it was: no
    gesture reaches [onGesture] and the action button is not clicked.  The
    input loop of the frame goes on as if that hand were not among the input
    sources. *)
Theorem detectGestures_tracking_lost hand frame w indexPose thumbPose :
  XR.getJointPose frame (hand !! "index-finger-tip")
    (xrReferenceSpace (self w)) = Normal indexPose ->
  XR.getJointPose frame (hand !! "thumb-tip")
    (xrReferenceSpace (self w)) = Normal thumbPose ->
  indexPose = None \/ thumbPose = None ->
  detectGestures hand frame w = (Normal tt, w)
  /\ gestures (log (detectGestures hand frame w).2) = gestures (log w)
  /\ clicks (log (detectGestures hand frame w).2) = clicks (log w)
  /\ (forall before after,
        forOf (before ++ XR.mkInputSource (Some hand) None :: after)
              (perInputSource frame) w
        = forOf (before ++ after) (perInputSource frame) w).
Proof.
  intros Hi Ht Hlost.
  assert (Hany : forall w1, self w1 = self w ->
                   detectGestures hand frame w1 = (Normal tt, w1)).
  { intros w1 Hself.
    rewrite (detectGestures_queries hand frame w1 indexPose thumbPose);
      rewrite ?Hself; try assumption.
    destruct Hlost; subst; [|destruct indexPose]; reflexivity. }
  rewrite (Hany w eq_refl). repeat split.
  intros before after. apply forOf_skip.
  destruct (callsOnly_forOf before (perInputSource frame)
              (callsOnly_perInputSource frame) w) as (events & E & _).
  assert (Hself : self (forOf before (perInputSource frame) w).2 = self w)
    by (rewrite E; reflexivity).
  generalize dependent (forOf before (perInputSource frame) w).2.
  intros w1 _ Hself.
  unfold perInputSource, mbind, M_bind. cbn.
  rewrite (Hany w1 Hself). reflexivity.
Qed.

Lemma detectGestures_tracking_lost_witness :
  detectGestures scenarioHand (scenarioFrame None None) scenarioWorld
  = (Normal tt, scenarioWorld).
Proof.
  apply (proj1 (detectGestures_tracking_lost scenarioHand
                  (scenarioFrame None None) scenarioWorld
                  (Some (at_ 0 1 0)) None eq_refl eq_refl
                  (or_intror eq_refl))).
Defined.

(** ** The pose mapper *)

Lemma updateCameraFromPose_view pose view w :
  XR.views pose !! 0%nat = Some view ->
  updateCameraFromPose pose w
  = (Normal tt,
     mkWorld (with_camera (self w) (cameraOf view)) (materials w) (log w)).
Proof.
  intros Hv. unfold updateCameraFromPose, mbind, M_bind, read. cbv zeta.
  unfold XR.View in *. rewrite Hv. reflexivity.
Qed.

Lemma updateCameraFromPose_no_view pose w :
  XR.views pose !! 0%nat = None ->
  updateCameraFromPose pose w = (Throw (TypeError "transform"), w).
Proof.
  intros Hv. unfold updateCameraFromPose, mbind, M_bind, read. cbv zeta.
  unfold XR.View in *. rewrite Hv. reflexivity.
Qed.

(** C2 (as amended): for a pose whose sequence of views is empty,
    [updateCameraFromPose] leaves the camera, and the whole world, as it was,
    and it does so by raising a [TypeError]: the first view is [undefined] and
    its [transform] is read without a guard. *)
Theorem updateCameraFromPose_no_views pose w :
  XR.views pose = [] ->
  updateCameraFromPose pose w = (Throw (TypeError "transform"), w)
  /\ camera (self (updateCameraFromPose pose w).2) = camera (self w).
Proof.
  intros Hviews.
  assert (E : updateCameraFromPose pose w = (Throw (TypeError "transform"), w)).
  { apply updateCameraFromPose_no_view. rewrite Hviews. reflexivity. }
  rewrite E. auto.
Qed.

Lemma updateCameraFromPose_no_views_witness :
  updateCameraFromPose emptyPose scenarioWorld
  = (Throw (TypeError "transform"), scenarioWorld).
Proof.
  apply (updateCameraFromPose_no_views emptyPose scenarioWorld eq_refl).
Defined.

(** The pose mapper is not a guarded no-op on a pose without views: it
    fails. *)
Lemma updateCameraFromPose_unguarded :
  XR.views emptyPose = []
  /\ ~ (is_normal (updateCameraFromPose emptyPose scenarioWorld).1 = true
        /\ camera (self (updateCameraFromPose emptyPose scenarioWorld).2)
           = camera (self scenarioWorld)).
Proof.
  split; [reflexivity|]. intros [Hnormal _]. discriminate Hnormal.
Qed.

(** ** The gaze resolver *)

Section Gaze.

Variable intersectObjects :
  THREE.Vector3 float -> THREE.Vector3 float -> list THREE.Object3D ->
  list THREE.Intersection.

Lemma detectGaze_view pose view w :
  XR.views pose !! 0%nat = Some view ->
  detectGaze intersectObjects pose w
  = (Normal tt,
     match intersectObjects (THREE.cam_position (camera (self w)))
             (gazeDirection view) (scene (self w)) with
     | first :: _ => highlighted w (THREE.material (THREE.object first))
     | [] => w
     end).
Proof.
  intros Hv. unfold detectGaze, mbind, M_bind, read, getThis.
  unfold XR.View in *. rewrite Hv. cbn.
  change (THREE.applyQuaternion _ _) with (gazeDirection view).
  destruct (intersectObjects _ _ _); reflexivity.
Qed.

Lemma detectGaze_no_view pose w :
  XR.views pose !! 0%nat = None ->
  detectGaze intersectObjects pose w = (Throw (TypeError "transform"), w).
Proof.
  intros Hv. unfold detectGaze, mbind, M_bind, read.
  unfold XR.View in *. rewrite Hv. reflexivity.
Qed.

(** C4: with no intersection [detectGaze] changes nothing; with one or more
    it writes the highlight colour to exactly one material, that of the first
    intersection, which is the nearest hit when the ray caster returns its
    hits by increasing distance.  Every other material, and so every object
    drawn with another material, keeps its colour. *)
Theorem detectGaze_highlights_nearest pose view w :
  XR.views pose !! 0%nat = Some view ->
  let hits := intersectObjects (THREE.cam_position (camera (self w)))
                (gazeDirection view) (scene (self w)) in
  let w' := (detectGaze intersectObjects pose w).2 in
  (hits = [] -> detectGaze intersectObjects pose w = (Normal tt, w))
  /\ (forall first rest, hits = first :: rest ->
        detectGaze intersectObjects pose w
        = (Normal tt, highlighted w (THREE.material (THREE.object first)))
        /\ colorOf w' (THREE.object first) = Some red
        /\ (forall m, m <> THREE.material (THREE.object first) ->
              materials w' !! m = materials w !! m)
        /\ (forall o, THREE.material o <> THREE.material (THREE.object first) ->
              colorOf w' o = colorOf w o)
        /\ self w' = self w /\ log w' = log w
        /\ (nearestFirst hits ->
            forall hit, In hit hits ->
              (THREE.distance first <=? THREE.distance hit)%float = true
              \/ hit = first)).
Proof.
  intros Hv hits w'. subst w'. rewrite (detectGaze_view _ _ _ Hv). fold hits.
  split.
  - intros ->. reflexivity.
  - intros first rest ->. cbn. unfold colorOf, highlighted. cbn.
    repeat split.
    + apply lookup_insert_eq.
    + intros m Hm. apply lookup_insert_ne. congruence.
    + intros o Ho. apply lookup_insert_ne. congruence.
    + intros Hsorted hit [<-|Hin]; [right; reflexivity|left].
      inversion Hsorted as [|? ? _ Hall]; subst.
      rewrite Forall_forall in Hall. apply Hall, list_elem_of_In, Hin.
Qed.

End Gaze.

(** ** A frame without a viewer pose *)

Lemma with_camera_same this : with_camera this (camera this) = this.
Proof. destruct this; reflexivity. Qed.

Section Loop.

Variable intersectObjects :
  THREE.Vector3 float -> THREE.Vector3 float -> list THREE.Object3D ->
  list THREE.Intersection.

(** Up to the input loop, a frame changes the camera and the materials and
    reaches the renderer; it may fail on a pose without views. *)
Lemma onXRFrame_pose_part time frame w :
  exists c m,
    let w1 := mkWorld (with_camera (self w) c) m
                      (log w ++ [SetSize; SetAnimationLoop]) in
    onXRFrame intersectObjects time frame w
    = (forOf (XR.inputSources (XR.session frame)) (perInputSource frame);;
       emit RequestAnimationFrame) w1
    \/ exists e, onXRFrame intersectObjects time frame w = (Throw e, w1).
Proof.
  destruct (XR.getViewerPose frame (xrReferenceSpace (self w)))
    as [pose|] eqn:Hpose.
  - destruct (XR.views pose !! 0%nat) as [view|] eqn:Hview.
    + exists (cameraOf view).
      exists (match intersectObjects (THREE.cam_position (cameraOf view))
                      (gazeDirection view) (scene (self w)) with
              | first :: _ =>
                  <[THREE.material (THREE.object first) := red]> (materials w)
              | [] => materials w
              end).
      left.
      unfold onXRFrame, mbind at 1 2 3 4, M_bind at 1 2 3 4, getThis. cbn.
      rewrite Hpose.
      unfold mbind at 1 2, M_bind at 1 2.
      rewrite (updateCameraFromPose_view _ _ _ Hview).
      rewrite (detectGaze_view _ _ _ _ Hview). cbn.
      rewrite <- (app_assoc (log w) [SetSize] [SetAnimationLoop]).
      destruct (intersectObjects _ _ _); reflexivity.
    + exists (camera (self w)), (materials w). right.
      exists (TypeError "transform").
      unfold onXRFrame, mbind at 1 2 3 4, M_bind at 1 2 3 4, getThis. cbn.
      rewrite Hpose.
      unfold mbind at 1 2, M_bind at 1 2.
      rewrite (updateCameraFromPose_no_view _ _ Hview).
      rewrite with_camera_same, <- app_assoc. reflexivity.
  - exists (camera (self w)), (materials w). left.
    rewrite (onXRFrame_no_pose _ _ _ _ Hpose).
    rewrite with_camera_same.
    unfold mbind at 1 2, M_bind at 1 2, emit at 1 2. cbn.
    rewrite <- (app_assoc (log w) [SetSize] [SetAnimationLoop]).
    reflexivity.
Qed.

(** After the pose part, the loop decides how the frame ends. *)
Lemma loop_then_rearm frame w1 :
  let loop := forOf (XR.inputSources (XR.session frame))
                    (perInputSource frame) w1 in
  let result := (forOf (XR.inputSources (XR.session frame))
                       (perInputSource frame);;
                 emit RequestAnimationFrame) w1 in
  result.1 = loop.1
  /\ self result.2 = self w1
  /\ materials result.2 = materials w1
  /\ exists events,
       log loop.2 = log w1 ++ events
       /\ rearmed events = 0
       /\ log result.2
          = log w1 ++ events
            ++ (if is_normal loop.1 then [RequestAnimationFrame] else []).
Proof.
  intros loop result. subst result.
  destruct (callsOnly_forOf (XR.inputSources (XR.session frame))
              (perInputSource frame) (callsOnly_perInputSource frame) w1)
    as (events & E & R).
  fold loop in E. unfold mbind, M_bind. fold loop.
  destruct loop as [[[]|e] w2]; cbn in *; subst w2; cbn.
  - repeat split. exists events. rewrite <- app_assoc. auto.
  - repeat split. exists events. rewrite app_nil_r. auto.
Qed.

(** C5 (as amended): in a frame without a viewer pose [onXRFrame] skips the
    pose mapper and the gaze resolver, so the instance, its camera and the
    materials are left as they were, and it runs the input loop over every
    input source.  The loop is re-armed exactly when that loop raised nothing;
    it raises nothing when every joint query returns, every gamepad has a
    first button and the control panel has its action button, and then each
    input source contributes its gestures, in order, and the request for the
    next frame comes last. *)
Theorem onXRFrame_without_pose time frame w :
  XR.getViewerPose frame (xrReferenceSpace (self w)) = None ->
  let sources := XR.inputSources (XR.session frame) in
  let w1 := mkWorld (self w) (materials w)
                    (log w ++ [SetSize; SetAnimationLoop]) in
  let loop := forOf sources (perInputSource frame) w1 in
  let result := onXRFrame intersectObjects time frame w in
  (self result.2 = self w
   /\ camera (self result.2) = camera (self w)
   /\ materials result.2 = materials w)
  /\ result.1 = loop.1
  /\ rearmed (log result.2)
     = rearmed (log w) + (if is_normal loop.1 then 1 else 0)
  /\ (forall btn,
        registered (self w) btn ->
        Forall (fun src => wellFormed (self w) frame src = true) sources ->
        result.1 = Normal tt
        /\ gestures (log result.2)
           = gestures (log w)
             ++ concat (map (sourceGestures (self w) frame) sources)
        /\ rearmed (log result.2) = rearmed (log w) + 1
        /\ last (log result.2) = Some RequestAnimationFrame).
Proof.
  intros Hpose sources w1 loop result.
  assert (E : result
              = (forOf sources (perInputSource frame);;
                 emit RequestAnimationFrame) w1).
  { subst result. rewrite (onXRFrame_no_pose _ _ _ _ Hpose).
    unfold mbind at 1 2, M_bind at 1 2, emit at 1 2. cbn.
    rewrite <- (app_assoc (log w) [SetSize] [SetAnimationLoop]).
    reflexivity. }
  destruct (loop_then_rearm frame w1) as (H1 & Hs & Hm & events & El & R & Er).
  fold sources in H1, Hs, Hm, El, Er. fold loop in H1, El, Er.
  rewrite <- E in H1, Hs, Hm, Er.
  assert (Hrearm : rearmed (log result.2)
                   = rearmed (log w) + (if is_normal loop.1 then 1 else 0)).
  { rewrite Er. cbn. rewrite !rearmed_app, R. cbn.
    destruct (is_normal loop.1); cbn; lia. }
  split; [repeat split; [exact Hs | rewrite Hs; reflexivity | exact Hm]|].
  split; [exact H1|]. split; [exact Hrearm|].
  intros btn Hreg Hwf.
  destruct (forOf_wellFormed frame sources btn w1 Hreg Hwf)
    as (ev & Ew & G & _).
  fold loop in Ew. rewrite Ew in El, Er, Hrearm, H1. cbn in El, Er, Hrearm, H1.
  apply app_inv_head in El. subst ev.
  repeat split.
  - exact H1.
  - rewrite Er, !gestures_app, G. cbn. rewrite !app_nil_r. reflexivity.
  - exact Hrearm.
  - rewrite Er, !app_assoc. apply last_snoc.
Qed.

(** ** Malformed input sources *)

(** C3 (as amended): a hand whose index or thumb joint pose does not resolve
    is skipped without an exception (also a hand that lacks the joint, when
    the device answers [null] for it), and a gamepad with a first button never
    raises.  A gamepad whose button sequence is empty makes
    [detectControllerInput] raise a [TypeError]; the exception leaves the
    frame callback, and the loop is not re-armed. *)
Theorem malformed_input_sources time frame w :
  (forall hand indexPose thumbPose,
     XR.getJointPose frame (hand !! "index-finger-tip")
       (xrReferenceSpace (self w)) = Normal indexPose ->
     XR.getJointPose frame (hand !! "thumb-tip")
       (xrReferenceSpace (self w)) = Normal thumbPose ->
     indexPose = None \/ thumbPose = None ->
     perInputSource frame (XR.mkInputSource (Some hand) None) w
     = (Normal tt, w))
  /\ (forall hand,
        hand !! "index-finger-tip" = None \/ hand !! "thumb-tip" = None ->
        XR.getJointPose frame None (xrReferenceSpace (self w)) = Normal None ->
        handAnswers (self w) frame (XR.mkInputSource (Some hand) None)
        = true ->
        perInputSource frame (XR.mkInputSource (Some hand) None) w
        = (Normal tt, w))
  /\ (forall src gamepad button,
        XR.gamepad src = Some gamepad ->
        XR.buttons gamepad !! 0%nat = Some button ->
        detectControllerInput src w
        = (Normal tt,
           mkWorld (self w) (materials w)
             (log w ++ if XR.pressed button
                       then [Gesture (onGesture (self w)) "select"] else [])))
  /\ (forall src gamepad,
        XR.gamepad src = Some gamepad ->
        XR.buttons gamepad = [] ->
        detectControllerInput src w = (Throw (TypeError "pressed"), w))
  /\ (forall before src after gamepad btn,
        XR.inputSources (XR.session frame) = before ++ src :: after ->
        registered (self w) btn ->
        Forall (fun s => wellFormed (self w) frame s = true) before ->
        handAnswers (self w) frame src = true ->
        XR.gamepad src = Some gamepad ->
        XR.buttons gamepad = [] ->
        let result := onXRFrame intersectObjects time frame w in
        is_normal result.1 = false
        /\ rearmed (log result.2) = rearmed (log w)).
Proof.
  assert (Hskip : forall hand ip tp,
     XR.getJointPose frame (hand !! "index-finger-tip")
       (xrReferenceSpace (self w)) = Normal ip ->
     XR.getJointPose frame (hand !! "thumb-tip")
       (xrReferenceSpace (self w)) = Normal tp ->
     ip = None \/ tp = None ->
     perInputSource frame (XR.mkInputSource (Some hand) None) w
     = (Normal tt, w)).
  { intros hand ip tp Hi Ht Hlost. unfold perInputSource, mbind, M_bind. cbn.
    rewrite (detectGestures_queries _ _ _ _ _ Hi Ht).
    destruct Hlost; subst; [|destruct ip]; reflexivity. }
  repeat apply conj.
  - exact Hskip.
  - intros hand Habsent Hnull Hanswers.
    unfold handAnswers in Hanswers. cbn in Hanswers.
    apply andb_prop in Hanswers as [Hi Ht].
    destruct (XR.getJointPose frame (hand !! "index-finger-tip") _)
      as [ip|] eqn:Ei; [|discriminate].
    destruct (XR.getJointPose frame (hand !! "thumb-tip") _)
      as [tp|] eqn:Et; [|discriminate].
    apply (Hskip hand ip tp Ei Et).
    destruct Habsent as [Ha|Ha]; rewrite Ha in *; [left|right]; congruence.
  - intros src gamepad button. apply detectControllerInput_button.
  - intros src gamepad Hg Hb. apply (detectControllerInput_no_button _ _ _ Hg).
    rewrite Hb. reflexivity.
  - intros before src after gamepad btn Hsrc Hreg Hwf Hh Hg Hb result.
    assert (Hb0 : XR.buttons gamepad !! 0%nat = None)
      by (rewrite Hb; reflexivity).
    subst result.
    destruct (onXRFrame_pose_part time frame w) as (c & m & [E|[e E]]);
      rewrite E; clear E.
    + rewrite Hsrc. unfold mbind, M_bind.
      destruct (forOf_first_malformed frame before src after gamepad btn
                  (mkWorld (with_camera (self w) c) m
                     (log w ++ [SetSize; SetAnimationLoop]))
                  Hreg Hwf Hh Hg Hb0) as (events & E & _ & R).
      rewrite E. cbn. rewrite !rearmed_app, R. cbn. split; [reflexivity|lia].
    + cbn. rewrite rearmed_app. cbn. split; [reflexivity|lia].
Qed.

End Loop.

Lemma onXRFrame_without_pose_witness :
  (onXRFrame noHits 0%float (scenarioFrame None (Some z01))
     scenarioWorld).1 = Normal tt
  /\ gestures (log (onXRFrame noHits 0%float
                      (scenarioFrame None (Some z01)) scenarioWorld).2)
     = ["pinch"].
Proof.
  destruct (onXRFrame_without_pose noHits 0%float
              (scenarioFrame None (Some z01)) scenarioWorld eq_refl)
    as (_ & _ & _ & H).
  destruct (H actionBtn) as (Hn & Hg & _).
  - exists (DOM.mkContainer "openavr-gui"
              [DOM.mkElement "h3" ""; actionBtn;
               DOM.mkElement "input" "slider"]).
    split; reflexivity.
  - repeat constructor.
  - split; [exact Hn | exact Hg].
Defined.

(** In a frame without a viewer pose whose only input source is a gamepad
    without buttons, the frame callback fails and the loop is not re-armed. *)
Lemma onXRFrame_without_pose_not_rearmed :
  let result := onXRFrame noHits 0%float bareGamepadFrame scenarioWorld in
  XR.getViewerPose bareGamepadFrame (xrReferenceSpace (self scenarioWorld))
  = None
  /\ result.1 = Throw (TypeError "pressed")
  /\ rearmed (log result.2) = rearmed (log scenarioWorld)
  /\ ~ (is_normal result.1 = true
        /\ rearmed (log result.2) = rearmed (log scenarioWorld) + 1).
Proof.
  cbv zeta. repeat split; try (vm_compute; reflexivity).
  intros [Hn _]. vm_compute in Hn. discriminate Hn.
Qed.

Lemma malformed_input_sources_witness :
  detectControllerInput bareGamepad scenarioWorld
  = (Throw (TypeError "pressed"), scenarioWorld)
  /\ is_normal (onXRFrame noHits 0%float bareGamepadFrame scenarioWorld).1
     = false.
Proof.
  destruct (malformed_input_sources noHits 0%float bareGamepadFrame
              scenarioWorld) as (_ & _ & _ & Hraise & Hleave).
  split.
  - apply (Hraise bareGamepad (XR.mkGamepad []) eq_refl eq_refl).
  - apply (Hleave [] bareGamepad [] (XR.mkGamepad []) actionBtn eq_refl).
    + exists (DOM.mkContainer "openavr-gui"
                [DOM.mkElement "h3" ""; actionBtn;
                 DOM.mkElement "input" "slider"]).
      split; reflexivity.
    + constructor.
    + reflexivity.
    + reflexivity.
    + reflexivity.
Defined.

(** A gamepad whose button sequence is empty is not skipped: the controller
    check raises and the exception leaves the per-frame pass. *)
Lemma bare_gamepad_not_skipped :
  XR.gamepad bareGamepad = Some (XR.mkGamepad [])
  /\ ~ (is_normal (detectControllerInput bareGamepad scenarioWorld).1 = true)
  /\ ~ (is_normal (forOf [bareGamepad] (perInputSource bareGamepadFrame)
                     scenarioWorld).1 = true)
  /\ ~ (is_normal (onXRFrame noHits 0%float bareGamepadFrame
                     scenarioWorld).1 = true).
Proof.
  repeat split; intros Hn; vm_compute in Hn; discriminate Hn.
Qed.

Lemma detectGaze_highlights_nearest_witness :
  detectGaze everyChild scenarioPose scenarioWorld
  = (Normal tt, highlighted scenarioWorld 0%nat).
Proof.
  destruct (detectGaze_highlights_nearest everyChild scenarioPose
              (XR.mkPose (XR.mkTransform
                 (XR.mkPoint 0 0x1.999999999999ap+0 0 1)
                 (XR.mkPoint 0 0 0 1)))%float
              scenarioWorld eq_refl) as [_ H].
  apply (H (THREE.mkIntersection 2%float
              (THREE.mkObject3D "buttonMesh"
                 (THREE.mkVector3 0 0x1.8p+0 (- 2))%float 0%nat))
           [] eq_refl).
Defined.

(** The end-to-end scenario of the specification: the camera moves to
    (0, 1.6, 0) and one pinch is emitted. *)
Example end_to_end_scenario :
  let result := onXRFrame noHits 0%float
                  (scenarioFrame (Some scenarioPose) (Some z01))
                  scenarioWorld in
  result.1 = Normal tt
  /\ THREE.cam_position (camera (self result.2))
     = THREE.mkVector3 0%float 0x1.999999999999ap+0%float 0%float
  /\ gestures (log result.2) = ["pinch"]
  /\ rearmed (log result.2) = 1.
Proof. vm_compute. repeat split. Qed.

(** ** The voice relay *)

Lemma forwarded_app (a b : list Event) :
  Voice.forwarded (a ++ b) = Voice.forwarded a ++ Voice.forwarded b.
Proof.
  induction a as [|e a IH]; [reflexivity|].
  destruct e; simpl; rewrite IH; reflexivity.
Qed.

Lemma reported_app (a b : list Event) :
  Voice.reported (a ++ b) = Voice.reported a ++ Voice.reported b.
Proof.
  induction a as [|e a IH]; [reflexivity|].
  destruct e; simpl; rewrite IH; reflexivity.
Qed.

Lemma reject_heard i e r :
  Voice.heard (Voice.reject i e r) = Voice.heard r ++ [UnhandledRejection e]
  /\ Voice.pending (Voice.reject i e r) = delete i (Voice.pending r).
Proof. split; reflexivity. Qed.

(** An utterance that arrives is taken up whatever the relay has been
    through: a request is issued and a task waits for its answer. *)
Lemma onresult_accepts this event t r :
  Voice.transcript event = Normal t ->
  let req := mkRequest t ("Bearer " ++ default "null" (witToken this)) in
  Voice.step this r (Voice.Result event)
  = Voice.mkRelay (Voice.pending r ++ [Voice.AwaitingFetch req])
                  (Voice.heard r ++ [Fetch req]).
Proof. intros Ht. cbn. unfold Voice.onresult. rewrite Ht. reflexivity. Qed.

(** An utterance that is answered is forwarded. *)
Lemma utterance_roundtrip this r event t response data entities :
  Voice.transcript event = Normal t ->
  getProperty data "entities" = Normal entities ->
  let n := List.length (Voice.pending r) in
  let r' := Voice.run this r
              [Voice.Result event;
               Voice.FetchSettled n (Normal response);
               Voice.JsonSettled n (Normal data)] in
  Voice.pending r' = Voice.pending r
  /\ Voice.forwarded (Voice.heard r')
     = Voice.forwarded (Voice.heard r) ++ [entities]
  /\ Voice.reported (Voice.heard r') = Voice.reported (Voice.heard r).
Proof.
  intros Ht He n r'. subst r'. unfold Voice.run. cbn [fold_left].
  rewrite (onresult_accepts _ _ _ _ Ht). cbn [Voice.step Voice.pending].
  assert (Hn : (Voice.pending r ++
                [Voice.AwaitingFetch
                   (mkRequest t ("Bearer " ++ default "null" (witToken this)))])
               !! n = Some (Voice.AwaitingFetch
                   (mkRequest t ("Bearer " ++ default "null" (witToken this))))).
  { subst n. rewrite lookup_app_r by lia. rewrite Nat.sub_diag. reflexivity. }
  rewrite Hn. unfold Voice.afterFetch. cbn [Voice.pending Voice.heard].
  assert (Hn' : (<[n := Voice.AwaitingJson response]>
                  (Voice.pending r ++
                   [Voice.AwaitingFetch
                      (mkRequest t
                         ("Bearer " ++ default "null" (witToken this)))]))
                !! n = Some (Voice.AwaitingJson response)).
  { apply list_lookup_insert_eq. rewrite List.length_app. cbn. subst n. lia. }
  rewrite Hn'. unfold Voice.afterJson. rewrite He.
  cbn [Voice.pending Voice.heard].
  repeat split.
  - subst n. rewrite insert_app_r_alt by lia. rewrite Nat.sub_diag. cbn.
    rewrite delete_middle. apply app_nil_r.
  - rewrite !forwarded_app. cbn. rewrite app_nil_r. reflexivity.
  - rewrite !reported_app. cbn. rewrite !app_nil_r. reflexivity.
Qed.

(** A response with an error status is not a failed request: its body is
    parsed like any other and whatever [entities] holds is forwarded. *)
Lemma error_status_is_forwarded this response data entities :
  getProperty data "entities" = Normal entities ->
  Voice.heard
    (Voice.step this (Voice.mkRelay [Voice.AwaitingJson response] [])
       (Voice.JsonSettled 0 (Normal data)))
  = [VoiceCommand (onVoiceCommand this) entities].
Proof. intros He. cbn. unfold Voice.afterJson. rewrite He. reflexivity. Qed.

(** C6: when the request of an utterance fails, at the [fetch] or at the
    parsing of the body, the handler stops there.  The failure is reported,
    once, as an unhandled rejection; nothing is forwarded to
    [onVoiceCommand] for that utterance; the other tasks are untouched; and
    an utterance that arrives afterwards and is answered is forwarded. *)
Theorem failed_request_is_reported this r i e input :
  (exists req, Voice.pending r !! i = Some (Voice.AwaitingFetch req)
               /\ input = Voice.FetchSettled i (Throw e))
  \/ (exists response,
        Voice.pending r !! i = Some (Voice.AwaitingJson response)
        /\ input = Voice.JsonSettled i (Throw e)) ->
  let r' := Voice.step this r input in
  Voice.heard r' = Voice.heard r ++ [UnhandledRejection e]
  /\ Voice.reported (Voice.heard r') = Voice.reported (Voice.heard r) ++ [e]
  /\ Voice.forwarded (Voice.heard r') = Voice.forwarded (Voice.heard r)
  /\ Voice.pending r' = delete i (Voice.pending r)
  /\ (forall event t response data entities,
        Voice.transcript event = Normal t ->
        getProperty data "entities" = Normal entities ->
        let n := List.length (Voice.pending r') in
        let r'' := Voice.run this r'
                     [Voice.Result event;
                      Voice.FetchSettled n (Normal response);
                      Voice.JsonSettled n (Normal data)] in
        Voice.forwarded (Voice.heard r'')
        = Voice.forwarded (Voice.heard r) ++ [entities]
        /\ Voice.reported (Voice.heard r'')
           = Voice.reported (Voice.heard r) ++ [e]
        /\ Voice.pending r'' = Voice.pending r').
Proof.
  intros Hfail r'.
  assert (E : r' = Voice.reject i e r).
  { subst r'. destruct Hfail as [(req & Hp & ->)|(response & Hp & ->)];
      cbn; rewrite Hp; reflexivity. }
  rewrite E. destruct (reject_heard i e r) as [Hh Hp].
  assert (Hrep : Voice.reported (Voice.heard (Voice.reject i e r))
                 = Voice.reported (Voice.heard r) ++ [e]).
  { rewrite Hh, reported_app. reflexivity. }
  assert (Hfwd : Voice.forwarded (Voice.heard (Voice.reject i e r))
                 = Voice.forwarded (Voice.heard r)).
  { rewrite Hh, forwarded_app. cbn. apply app_nil_r. }
  repeat apply conj; try assumption.
  intros event t response data entities Ht He n r''.
  destruct (utterance_roundtrip this (Voice.reject i e r) event t response
              data entities Ht He) as (Hp' & Hf' & Hr').
  fold n in Hp', Hf', Hr'. fold r'' in Hp', Hf', Hr'.
  rewrite Hf', Hr', Hfwd, Hrep. auto.
Qed.

Lemma failed_request_is_reported_witness :
  let r := Voice.run scenarioWorld.(self) idle
             [Voice.Result (utterance " change scene ");
              Voice.FetchSettled 0 (Throw FetchError);
              Voice.Result (utterance "change scene");
              Voice.FetchSettled 0 (Normal (Voice.mkResponse 200));
              Voice.JsonSettled 0 (Normal intentBody)] in
  Voice.reported (Voice.heard r) = [FetchError]
  /\ Voice.forwarded (Voice.heard r) = [intentEntities]
  /\ Voice.pending r = [].
Proof.
  pose (this := self scenarioWorld).
  pose (r1 := Voice.step this idle (Voice.Result (utterance " change scene "))).
  destruct (failed_request_is_reported this r1 0 FetchError
              (Voice.FetchSettled 0 (Throw FetchError))) as (_ & _ & _ & _ & H).
  { left. eexists. split; reflexivity. }
  destruct (H (utterance "change scene") "change scene"
              (Voice.mkResponse 200) intentBody intentEntities
              eq_refl eq_refl) as (Hf & Hr & Hp).
  cbv zeta. split; [exact Hr|]. split; [exact Hf | exact Hp].
Defined.

(** ** The gaze direction *)

Lemma applyQuaternion_lengthSq (v : THREE.Vector3 R) (q : THREE.Quaternion R) :
  THREE.lengthSq (THREE.applyQuaternion v q)
  = (THREE.qlengthSq q * THREE.qlengthSq q * THREE.lengthSq v)%R.
Proof.
  destruct v as [a b c], q as [x y z w].
  unfold THREE.lengthSq, THREE.qlengthSq, THREE.applyQuaternion,
    THREE.multiply, THREE.conjugate. cbn. ring.
Qed.

(** C9: the identity orientation leaves the forward direction (0, 0, -1) as
    it is, in the binary64 arithmetic of the program, and the application of a
    unit quaternion preserves the length of a vector, in exact arithmetic. *)
Theorem applyQuaternion_rotation :
  THREE.applyQuaternion forward identityQ = forward
  /\ (forall view,
        XR.orientation (XR.transform view)
        = XR.mkPoint 0%float 0%float 0%float 1%float ->
        gazeDirection view = forward)
  /\ (forall (q : THREE.Quaternion R) (v : THREE.Vector3 R),
        THREE.qlengthSq q = 1%R ->
        THREE.length (THREE.applyQuaternion v q) = THREE.length v
        /\ THREE.lengthSq (THREE.applyQuaternion v q) = THREE.lengthSq v).
Proof.
  split; [vm_compute; reflexivity|]. split.
  - intros view Hid. unfold gazeDirection. rewrite Hid. vm_compute. reflexivity.
  - intros q v Hunit.
    assert (E : THREE.lengthSq (THREE.applyQuaternion v q) = THREE.lengthSq v).
    { rewrite applyQuaternion_lengthSq, Hunit. ring. }
    split; [|exact E]. unfold THREE.length. rewrite E. reflexivity.
Qed.

Lemma applyQuaternion_rotation_witness :
  THREE.length (THREE.applyQuaternion forwardR halfTurnY)
  = THREE.length forwardR.
Proof.
  apply (proj2 (proj2 applyQuaternion_rotation) halfTurnY forwardR).
  unfold THREE.qlengthSq. cbn. lra.
Defined.

(** The half turn about the Y axis sends the forward direction to its
    negation, in binary64 and without rounding. *)
Example applyQuaternion_half_turn :
  THREE.applyQuaternion forward
    (THREE.mkQuaternion 0%float 1%float 0%float 0%float)
  = THREE.mkVector3 0%float 0%float 1%float.
Proof. vm_compute. reflexivity. Qed.

(** ** Construction *)

Lemma initVoiceInput_disabled window w :
  SpeechRecognition window || webkitSpeechRecognition window = false
  \/ truthy (witToken (self w)) = None ->
  initVoiceInput window w = (Normal tt, w).
Proof.
  intros Hoff. unfold initVoiceInput, mbind, M_bind, getThis. cbn.
  destruct Hoff as [-> | ->]; cbn; [reflexivity|].
  rewrite orb_true_r. reflexivity.
Qed.

Lemma truthy_idempotent s : truthy (truthy s) = truthy s.
Proof.
  destruct s as [s|]; [|reflexivity]. cbn.
  destruct (String.eqb s "") eqn:E; [reflexivity|]. cbn. rewrite E. reflexivity.
Qed.

(** C10: the constructor completes for every options object, and for none.
    A missing (or empty) mode becomes ['AR'], missing callbacks become the
    no-op, and when the page has no speech recognition or the options carry
    no token, [initVoiceInput] returns without starting the recognition: the
    constructor only appends the canvas and the control panel to the page. *)
Theorem constructor_never_fails window options store :
  let opts := default emptyOptions options in
  let result := constructor window options store in
  let this := self result.2 in
  let voice :=
    (SpeechRecognition window || webkitSpeechRecognition window)
    && bool_decide (is_Some (truthy (opt_witToken opts))) in
  result.1 = Normal tt
  /\ mode this = default "AR" (truthy (opt_mode opts))
  /\ (opt_mode opts = None -> mode this = "AR")
  /\ onGesture this = default Noop (opt_onGesture opts)
  /\ onVoiceCommand this = default Noop (opt_onVoiceCommand opts)
  /\ (opt_onGesture opts = None -> onGesture this = Noop)
  /\ (opt_onVoiceCommand opts = None -> onVoiceCommand this = Noop)
  /\ witToken this = truthy (opt_witToken opts)
  /\ log result.2
     = [AppendChild "canvas"; AppendChild "openavr-gui"]
       ++ (if voice then [RecognitionStart "en-US" true] else [])
  /\ (SpeechRecognition window || webkitSpeechRecognition window = false
      \/ truthy (opt_witToken opts) = None ->
      log result.2 = [AppendChild "canvas"; AppendChild "openavr-gui"]
      /\ initVoiceInput window result.2 = (Normal tt, result.2))
  /\ registered this actionBtn.
Proof.
  intros opts result this voice.
  assert (Hlog : log result.2
     = [AppendChild "canvas"; AppendChild "openavr-gui"]
       ++ (if voice then [RecognitionStart "en-US" true] else [])).
  { subst voice result. unfold constructor. fold opts.
    unfold createHTMLGUI, create3DGUI, newMaterial, initVoiceInput, setThis,
      getThis, emit, mbind, M_bind, mret, M_ret.
    cbn -[truthy fresh]. rewrite truthy_idempotent.
    destruct (SpeechRecognition window), (webkitSpeechRecognition window);
      cbn; try reflexivity;
      destruct (truthy (opt_witToken opts)); reflexivity. }
  assert (Hfields : result.1 = Normal tt
     /\ mode this = default "AR" (truthy (opt_mode opts))
     /\ onGesture this = default Noop (opt_onGesture opts)
     /\ onVoiceCommand this = default Noop (opt_onVoiceCommand opts)
     /\ witToken this = truthy (opt_witToken opts)
     /\ registered this actionBtn).
  { subst this result. unfold constructor. fold opts.
    unfold createHTMLGUI, create3DGUI, newMaterial, initVoiceInput, setThis,
      getThis, emit, mbind, M_bind, mret, M_ret.
    cbn -[truthy fresh]. rewrite truthy_idempotent.
    assert (Hreg : registered
      (with_guiContainer
        (mkOpenAVR (default "AR" (truthy (opt_mode opts))) (opt_renderer opts)
           (default Noop (opt_onGesture opts))
           (default Noop (opt_onVoiceCommand opts))
           (truthy (opt_witToken opts)) None []
           (THREE.mkCamera (THREE.mkVector3 0 0 0)%float
                           (THREE.mkQuaternion 0 0 0 1)%float) None)
        (Some (DOM.mkContainer "openavr-gui"
                 [DOM.mkElement "h3" ""; actionBtn;
                  DOM.mkElement "input" "slider"]))) actionBtn).
    { eexists. split; reflexivity. }
    destruct (negb (SpeechRecognition window || webkitSpeechRecognition window)
              || negb (bool_decide (is_Some (truthy (opt_witToken opts)))));
      cbn; repeat split; try reflexivity; exact Hreg. }
  destruct Hfields as (Hn & Hmode & Hg & Hv & Ht & Hreg).
  repeat apply conj; try assumption.
  - intros Hnone. rewrite Hmode, Hnone. reflexivity.
  - intros Hnone. rewrite Hg, Hnone. reflexivity.
  - intros Hnone. rewrite Hv, Hnone. reflexivity.
  - intros Hoff.
    assert (Hvoice : voice = false).
    { subst voice. destruct Hoff as [-> | ->]; [reflexivity|].
      apply andb_false_r. }
    split.
    + rewrite Hlog, Hvoice. reflexivity.
    + apply initVoiceInput_disabled. fold this. rewrite Ht, truthy_idempotent.
      exact Hoff.
Qed.

Lemma constructor_never_fails_witness :
  log scenarioWorld = [AppendChild "canvas"; AppendChild "openavr-gui"]
  /\ initVoiceInput (mkWindow false false) scenarioWorld
     = (Normal tt, scenarioWorld).
Proof.
  destruct (constructor_never_fails (mkWindow false false) None ∅)
    as (_ & _ & _ & _ & _ & _ & _ & _ & _ & H & _).
  apply H. left. reflexivity.
Defined.

(** The options of the example page, on a page with speech recognition:
    the recognition is started. *)
Example constructor_example_page :
  let result :=
    constructor (mkWindow true false)
      (Some (mkOptions (Some "AR") (Some (AppFunction "renderer"))
               (Some (AppFunction "onGesture"))
               (Some (AppFunction "onVoiceCommand"))
               (Some "YOUR_WIT_AI_TOKEN"))) ∅ in
  result.1 = Normal tt
  /\ log result.2 = [AppendChild "canvas"; AppendChild "openavr-gui";
                     RecognitionStart "en-US" true]
  /\ colorOf result.2 (THREE.mkObject3D "buttonMesh"
                         (THREE.mkVector3 0 0x1.8p+0 (- 2))%float 0%nat)
     = Some green.
Proof. vm_compute. repeat split. Qed.

(* ================================================================== *)
(** * Further properties of the frame callback *)

(** ** The protocol of the input loop *)

Lemma inputProtocol_app b e1 e2 :
  inputProtocol b e1 = true ->
  endsWithPinch b e1 = false ->
  inputProtocol false e2 = true ->
  inputProtocol b (e1 ++ e2) = true.
Proof.
  revert b. induction e1 as [|e e1 IH]; intros b H1 Hend H2; cbn in *.
  - subst b. exact H2.
  - destruct e; try discriminate.
    + apply andb_prop in H1 as [H1 H1']. rewrite H1. cbn.
      apply IH; assumption.
    + apply andb_prop in H1 as [H1 H1']. rewrite H1. cbn.
      apply IH; assumption.
Qed.

Lemma endsWithPinch_app b e1 e2 :
  endsWithPinch b (e1 ++ e2) = endsWithPinch (endsWithPinch b e1) e2.
Proof.
  revert b. induction e1 as [|e e1 IH]; intros b; cbn; [reflexivity|].
  destruct e; apply IH.
Qed.

Lemma inputProtocol_gestures b events :
  inputProtocol b events = true ->
  Forall (fun type => type = "pinch" \/ type = "select") (gestures events).
Proof.
  revert b. induction events as [|e events IH]; intros b H; cbn in *.
  - constructor.
  - destruct e; try discriminate.
    + apply andb_prop in H as [H H']. apply andb_prop in H as [_ H].
      constructor; [|eauto].
      apply orb_prop in H as [H|H]; apply String.eqb_eq in H; auto.
    + apply andb_prop in H as [_ H]. eauto.
Qed.

Lemma inputProtocol_rearmed b events :
  inputProtocol b events = true -> rearmed events = 0.
Proof.
  revert b. induction events as [|e events IH]; intros b H; cbn in *.
  - reflexivity.
  - destruct e; try discriminate.
    + apply andb_prop in H as [_ H]. eauto.
    + apply andb_prop in H as [_ H]. eauto.
Qed.

(** Under the protocol, the clicks are the pinches that are not last. *)
Lemma inputProtocol_clicks b events :
  inputProtocol b events = true ->
  clicks events + (if endsWithPinch b events then 1 else 0)
  = count_occ string_dec (gestures events) "pinch" + (if b then 1 else 0).
Proof.
  revert b. induction events as [|e events IH]; intros b H.
  - reflexivity.
  - destruct e; cbn [inputProtocol] in H; try discriminate;
      cbn [clicks endsWithPinch gestures].
    + apply andb_prop in H as [H H']. apply andb_prop in H as [Hb Ht].
      destruct b; [discriminate|]. specialize (IH _ H').
      destruct (string_dec type "pinch") as [->|Hne].
      * rewrite count_occ_cons_eq by reflexivity.
        change (String.eqb "pinch" "pinch") with true in *.
        rewrite IH. lia.
      * rewrite count_occ_cons_neq by exact Hne.
        assert (E : String.eqb type "pinch" = false)
          by (apply String.eqb_neq; exact Hne).
        rewrite E in IH |- *. rewrite IH. lia.
    + apply andb_prop in H as [Hb H']. subst b. specialize (IH _ H').
      cbn [Nat.add]. rewrite IH. lia.
Qed.

Lemma inputOnly_ret {A} (a : A) : inputOnly (mret a).
Proof. intros w. exists []. cbn. rewrite app_nil_r, world_eta. auto. Qed.

Lemma inputOnly_throw {A} e : inputOnly (@throw A e).
Proof.
  intros w. exists []. cbn. rewrite app_nil_r, world_eta. auto.
Qed.

Lemma inputOnly_bind {A B} (m : M A) (k : A -> M B) :
  inputOnly m -> (forall a, inputOnly (k a)) -> inputOnly (m ≫= k).
Proof.
  intros Hm Hk w. unfold mbind, M_bind.
  destruct (Hm w) as (e1 & E1 & P1 & N1).
  destruct (m w) as [[a|err] w1]; cbn in E1, N1; subst w1.
  - specialize (N1 eq_refl).
    destruct (Hk a (mkWorld (self w) (materials w) (log w ++ e1)))
      as (e2 & E2 & P2 & N2).
    exists (e1 ++ e2). rewrite E2. cbn. rewrite <- app_assoc.
    split; [reflexivity|]. split.
    + apply inputProtocol_app; assumption.
    + intros Hn. rewrite endsWithPinch_app, N1. auto.
  - exists e1. split; [reflexivity|]. split; [assumption|].
    cbn. discriminate.
Qed.

Lemma inputOnly_detectGestures hand frame :
  inputOnly (detectGestures hand frame).
Proof.
  intros w. unfold detectGestures, mbind, M_bind, getThis, lift.
  cbn -[DOM.querySelector].
  destruct (XR.getJointPose frame (hand !! "index-finger-tip") _)
    as [ip|e1]; [|apply (inputOnly_throw e1 w)].
  destruct (XR.getJointPose frame (hand !! "thumb-tip") _)
    as [tp|e2]; [|apply (inputOnly_throw e2 w)].
  destruct ip as [ip|], tp as [tp|]; try apply (inputOnly_ret tt w).
  destruct (_ <? _)%float; [|apply (inputOnly_ret tt w)].
  unfold emit, read, throw, mret, M_ret.
  destruct (guiContainer (self w)) as [gui|]; cbn -[DOM.querySelector].
  - destruct (DOM.querySelector gui "#actionBtn") as [btn|]; cbn.
    + exists [Gesture (onGesture (self w)) "pinch"; Click btn].
      rewrite <- ?app_assoc. auto.
    + exists [Gesture (onGesture (self w)) "pinch"].
      split; [reflexivity|]. split; [reflexivity|]. cbn. discriminate.
  - exists [Gesture (onGesture (self w)) "pinch"].
    split; [reflexivity|]. split; [reflexivity|]. cbn. discriminate.
Qed.

Lemma inputOnly_detectControllerInput src :
  inputOnly (detectControllerInput src).
Proof.
  intros w. unfold detectControllerInput, mbind, M_bind, read, getThis.
  destruct (XR.gamepad src) as [gamepad|]; [|apply (inputOnly_throw _ w)].
  cbn. destruct (XR.buttons gamepad !! 0%nat) as [button|];
    [|apply (inputOnly_throw _ w)].
  cbn. destruct (XR.pressed button); [|apply (inputOnly_ret tt w)].
  exists [Gesture (onGesture (self w)) "select"]. auto.
Qed.

Lemma inputOnly_perInputSource frame src : inputOnly (perInputSource frame src).
Proof.
  unfold perInputSource. apply inputOnly_bind.
  - destruct (XR.hand src);
      [apply inputOnly_detectGestures | apply inputOnly_ret].
  - intros _. destruct (XR.gamepad src);
      [apply inputOnly_detectControllerInput | apply inputOnly_ret].
Qed.

Lemma inputOnly_forOf {A} (l : list A) body :
  (forall a, inputOnly (body a)) -> inputOnly (forOf l body).
Proof.
  intros Hb. induction l as [|a l IH]; cbn; [apply inputOnly_ret|].
  apply inputOnly_bind; auto.
Qed.

(** ** The whole frame *)

Lemma since_app w w' events :
  log w' = log w ++ events -> since w w' = events.
Proof. intros E. unfold since. rewrite E. apply drop_app_length. Qed.

Lemma onlyHighlighted_refl w : onlyHighlighted w w.
Proof. intros m. left. reflexivity. Qed.

Lemma onlyHighlighted_trans w1 w2 w3 :
  onlyHighlighted w1 w2 -> onlyHighlighted w2 w3 -> onlyHighlighted w1 w3.
Proof.
  intros H12 H23 m. destruct (H23 m) as [E|E]; [|right; exact E].
  rewrite E. apply H12.
Qed.

Lemma with_camera_twice this c1 c2 :
  with_camera (with_camera this c1) c2 = with_camera this c2.
Proof. reflexivity. Qed.

Section Whole.

Variable intersectObjects :
  THREE.Vector3 float -> THREE.Vector3 float -> list THREE.Object3D ->
  list THREE.Intersection.

Lemma onXRFrame_viewed time frame w pose view :
  XR.getViewerPose frame (xrReferenceSpace (self w)) = Some pose ->
  XR.views pose !! 0%nat = Some view ->
  onXRFrame intersectObjects time frame w
  = (forOf (XR.inputSources (XR.session frame)) (perInputSource frame);;
     emit RequestAnimationFrame) (posed intersectObjects w view).
Proof.
  intros Hpose Hview.
  unfold onXRFrame, mbind at 1 2 3 4, M_bind at 1 2 3 4, getThis. cbn.
  rewrite Hpose. unfold mbind at 1 2, M_bind at 1 2.
  rewrite (updateCameraFromPose_view _ _ _ Hview).
  rewrite (detectGaze_view _ _ _ _ Hview). cbn.
  rewrite <- (app_assoc (log w) [SetSize] [SetAnimationLoop]).
  unfold posed, gazeHits.
  destruct (intersectObjects _ _ _); reflexivity.
Qed.

Lemma onXRFrame_viewless time frame w pose :
  XR.getViewerPose frame (xrReferenceSpace (self w)) = Some pose ->
  XR.views pose !! 0%nat = None ->
  onXRFrame intersectObjects time frame w
  = (Throw (TypeError "transform"),
     mkWorld (self w) (materials w) (log w ++ [SetSize; SetAnimationLoop])).
Proof.
  intros Hpose Hview.
  unfold onXRFrame, mbind at 1 2 3 4, M_bind at 1 2 3 4, getThis. cbn.
  rewrite Hpose. unfold mbind at 1 2, M_bind at 1 2.
  rewrite (updateCameraFromPose_no_view _ _ Hview).
  rewrite <- app_assoc. reflexivity.
Qed.

Lemma onXRFrame_poseless time frame w :
  XR.getViewerPose frame (xrReferenceSpace (self w)) = None ->
  onXRFrame intersectObjects time frame w
  = (forOf (XR.inputSources (XR.session frame)) (perInputSource frame);;
     emit RequestAnimationFrame)
      (mkWorld (self w) (materials w) (log w ++ [SetSize; SetAnimationLoop])).
Proof.
  intros Hpose. rewrite (onXRFrame_no_pose _ _ _ _ Hpose).
  unfold mbind at 1 2, M_bind at 1 2, emit at 1 2. cbn.
  rewrite <- (app_assoc (log w) [SetSize] [SetAnimationLoop]).
  reflexivity.
Qed.

(** The input loop and the request for the next frame, from any world. *)
Lemma loop_footprint frame w1 :
  let result := (forOf (XR.inputSources (XR.session frame))
                       (perInputSource frame);;
                 emit RequestAnimationFrame) w1 in
  exists inputs,
    self result.2 = self w1
    /\ materials result.2 = materials w1
    /\ log result.2
       = log w1 ++ inputs
         ++ (if is_normal result.1 then [RequestAnimationFrame] else [])
    /\ inputProtocol false inputs = true
    /\ (is_normal result.1 = true -> endsWithPinch false inputs = false).
Proof.
  intros result. subst result.
  destruct (inputOnly_forOf (XR.inputSources (XR.session frame))
              (perInputSource frame) (inputOnly_perInputSource frame) w1)
    as (inputs & E & P & N).
  unfold mbind, M_bind.
  destruct (forOf _ _ w1) as [[[]|e] w2]; cbn in E, N |- *; subst w2; cbn.
  - exists inputs. rewrite <- app_assoc. auto.
  - exists inputs. rewrite app_nil_r. repeat split; assumption.
Qed.

(** The shape of a frame, whatever it is given. *)
Lemma onXRFrame_shape time frame w :
  let result := onXRFrame intersectObjects time frame w in
  exists c inputs,
    self result.2 = with_camera (self w) c
    /\ onlyHighlighted w result.2
    /\ log result.2
       = log w ++ [SetSize; SetAnimationLoop] ++ inputs
         ++ (if is_normal result.1 then [RequestAnimationFrame] else [])
    /\ inputProtocol false inputs = true
    /\ (is_normal result.1 = true -> endsWithPinch false inputs = false).
Proof.
  intros result. subst result.
  destruct (XR.getViewerPose frame (xrReferenceSpace (self w)))
    as [pose|] eqn:Hpose.
  - destruct (XR.views pose !! 0%nat) as [view|] eqn:Hview.
    + rewrite (onXRFrame_viewed _ _ _ _ _ Hpose Hview).
      destruct (loop_footprint frame (posed intersectObjects w view))
        as (inputs & Hs & Hm & Hl & P & N).
      exists (cameraOf view), inputs. rewrite Hs, Hl. cbn.
      rewrite <- !app_assoc. repeat split; try assumption.
      intros m. rewrite Hm. unfold posed. cbn.
      destruct (gazeHits intersectObjects (self w) view) as [|first rest];
        [left; reflexivity|].
      destruct (decide (m = THREE.material (THREE.object first))) as [->|Hne].
      * right. apply lookup_insert_eq.
      * left. apply lookup_insert_ne. congruence.
    + rewrite (onXRFrame_viewless _ _ _ _ Hpose Hview). cbn.
      exists (camera (self w)), []. rewrite with_camera_same.
      repeat split; auto. intros m. left. reflexivity.
  - rewrite (onXRFrame_poseless _ _ _ Hpose).
    destruct (loop_footprint frame
                (mkWorld (self w) (materials w)
                   (log w ++ [SetSize; SetAnimationLoop])))
      as (inputs & Hs & Hm & Hl & P & N).
    exists (camera (self w)), inputs. rewrite Hs, Hl. cbn.
    rewrite with_camera_same, <- !app_assoc.
    repeat split; try assumption.
    intros m. rewrite Hm. left. reflexivity.
Qed.

(** X1: whatever the frame and however it ends, [onXRFrame] changes nothing
    of the instance but its camera, recolours materials only to the highlight
    colour, and logs the two renderer calls, then events of the input loop
    that follow its protocol (only [pinch] and [select] gestures, a click
    only directly after a pinch), then the request for the next frame exactly
    when it completes; a completed frame leaves no pinch without its
    click. *)
Theorem onXRFrame_footprint time frame w :
  let result := onXRFrame intersectObjects time frame w in
  exists c inputs,
    self result.2 = with_camera (self w) c
    /\ onlyHighlighted w result.2
    /\ since w result.2
       = [SetSize; SetAnimationLoop] ++ inputs
         ++ (if is_normal result.1 then [RequestAnimationFrame] else [])
    /\ inputProtocol false inputs = true
    /\ (is_normal result.1 = true -> endsWithPinch false inputs = false)
    /\ rearmed (log result.2)
       = rearmed (log w) + (if is_normal result.1 then 1 else 0).
Proof.
  intros result.
  destruct (onXRFrame_shape time frame w)
    as (c & inputs & Hs & Hh & Hl & P & N).
  fold result in Hs, Hh, Hl, N.
  exists c, inputs.
  split; [exact Hs|]. split; [exact Hh|].
  split; [apply since_app; exact Hl|].
  split; [exact P|]. split; [exact N|].
  rewrite Hl, rearmed_app. cbn.
  rewrite rearmed_app, (inputProtocol_rearmed _ _ P).
  destruct (is_normal result.1); cbn; lia.
Qed.

(** X2: in a frame whose viewer pose has a first view, the camera ends up
    at that view and the gaze ray is cast from the position just written,
    whatever the input loop does afterwards; with well-formed input sources
    and the action button in place the frame completes, hands over the
    gestures of its input sources in order and requests the next frame
    once. *)
Theorem onXRFrame_with_view time frame w pose view :
  XR.getViewerPose frame (xrReferenceSpace (self w)) = Some pose ->
  XR.views pose !! 0%nat = Some view ->
  let sources := XR.inputSources (XR.session frame) in
  let result := onXRFrame intersectObjects time frame w in
  camera (self result.2) = cameraOf view
  /\ materials result.2 = materials (posed intersectObjects w view)
  /\ (forall first rest,
        intersectObjects (THREE.cam_position (cameraOf view))
          (gazeDirection view) (scene (self w)) = first :: rest ->
        colorOf result.2 (THREE.object first) = Some red)
  /\ (forall btn,
        registered (self w) btn ->
        Forall (fun src => wellFormed (self w) frame src = true) sources ->
        result.1 = Normal tt
        /\ gestures (since w result.2)
           = concat (map (sourceGestures (self w) frame) sources)
        /\ rearmed (since w result.2) = 1).
Proof.
  intros Hpose Hview sources result. subst result.
  rewrite (onXRFrame_viewed _ _ _ _ _ Hpose Hview).
  destruct (loop_footprint frame (posed intersectObjects w view))
    as (inputs & Hs & Hm & Hl & P & N).
  fold sources in Hs, Hm, Hl, N |- *.
  split; [rewrite Hs; reflexivity|]. split; [exact Hm|]. split.
  - intros first rest Hhits. unfold colorOf. rewrite Hm.
    unfold posed, gazeHits. cbn [materials]. rewrite Hhits.
    apply lookup_insert_eq.
  - intros btn Hreg Hwf.
    destruct (forOf_wellFormed frame sources btn
                (posed intersectObjects w view) Hreg Hwf)
      as (ev & Ew & G & R).
    unfold mbind, M_bind. rewrite Ew. cbn.
    split; [reflexivity|].
    rewrite (since_app w _ ([SetSize; SetAnimationLoop] ++ ev
                            ++ [RequestAnimationFrame]))
      by (cbn; rewrite <- !app_assoc; reflexivity).
    cbn. rewrite gestures_app, rearmed_app, G, R. cbn.
    rewrite app_nil_r. auto.
Qed.

(** X3: a viewer pose without views ends the frame at the pose mapper: the
    frame fails after the two renderer calls, no input source is looked at,
    nothing reaches [onGesture], and the next frame is not requested. *)
Theorem onXRFrame_pose_without_views time frame w pose :
  XR.getViewerPose frame (xrReferenceSpace (self w)) = Some pose ->
  XR.views pose = [] ->
  let result := onXRFrame intersectObjects time frame w in
  result.1 = Throw (TypeError "transform")
  /\ self result.2 = self w
  /\ materials result.2 = materials w
  /\ since w result.2 = [SetSize; SetAnimationLoop]
  /\ gestures (since w result.2) = []
  /\ rearmed (log result.2) = rearmed (log w).
Proof.
  intros Hpose Hviews result. subst result.
  rewrite (onXRFrame_viewless _ _ _ _ Hpose)
    by (rewrite Hviews; reflexivity).
  cbn. rewrite (since_app w _ [SetSize; SetAnimationLoop]) by reflexivity.
  rewrite rearmed_app. cbn. repeat split. lia.
Qed.

(** ** Runs of frames *)

Lemma runFrames_invariant frames :
  forall w,
    let result := runFrames intersectObjects frames w in
    (exists c, self result.2 = with_camera (self w) c)
    /\ onlyHighlighted w result.2
    /\ (exists events, log result.2 = log w ++ events)
    /\ (is_normal result.1 = true ->
        rearmed (log result.2) = rearmed (log w) + List.length frames)
    /\ (is_normal result.1 = false ->
        rearmed (log result.2) < rearmed (log w) + List.length frames).
Proof.
  induction frames as [|[time frame] frames IH]; intros w result.
  - subst result. cbn. split; [exists (camera (self w));
                               rewrite with_camera_same; reflexivity|].
    split; [apply onlyHighlighted_refl|].
    split; [exists []; rewrite app_nil_r; reflexivity|].
    split; [intros _; lia|discriminate].
  - subst result. cbn [runFrames].
    destruct (onXRFrame_shape time frame w)
      as (c & inputs & Hs & Hh & Hl & P & _).
    pose proof (inputProtocol_rearmed _ _ P) as R.
    destruct (onXRFrame intersectObjects time frame w) as [[[]|e] w1];
      cbn in Hs, Hh, Hl.
    + specialize (IH w1). cbn zeta in IH.
      destruct IH as ((c' & Hs') & Hh' & (ev & Hl') & Hr & Hf).
      split; [exists c'; rewrite Hs', Hs; reflexivity|].
      split; [eapply onlyHighlighted_trans; eassumption|].
      split; [eexists; rewrite Hl', Hl, <- !app_assoc; reflexivity|].
      assert (R1 : rearmed (log w1) = rearmed (log w) + 1).
      { rewrite Hl, rearmed_app. cbn. rewrite rearmed_app, R. cbn. lia. }
      split.
      * intros Hn. specialize (Hr Hn). cbn [List.length]. lia.
      * intros Hn. specialize (Hf Hn). cbn [List.length]. lia.
    + cbn. split; [exists c; exact Hs|]. split; [exact Hh|].
      split; [eexists; rewrite Hl; reflexivity|].
      assert (R1 : rearmed (log w1) = rearmed (log w)).
      { rewrite Hl, rearmed_app. cbn. rewrite rearmed_app, R. cbn. lia. }
      split; [discriminate|]. intros _. lia.
Qed.

(** X4: over any run of frames the instance changes in its camera only, and
    the loop has requested as many frames as it was given exactly when the
    last of them completed: one failing frame and the frames after it are
    never delivered. *)
Theorem runFrames_keeps_instance frames w :
  let result := runFrames intersectObjects frames w in
  (exists c, self result.2 = with_camera (self w) c)
  /\ mode (self result.2) = mode (self w)
  /\ xrReferenceSpace (self result.2) = xrReferenceSpace (self w)
  /\ guiContainer (self result.2) = guiContainer (self w)
  /\ scene (self result.2) = scene (self w)
  /\ (forall btn, registered (self w) btn -> registered (self result.2) btn)
  /\ (is_normal result.1 = true <->
      rearmed (log result.2) = rearmed (log w) + List.length frames).
Proof.
  intros result.
  destruct (runFrames_invariant frames w) as ((c & Hs) & _ & _ & Hr & Hf).
  fold result in Hs, Hr, Hf.
  split; [exists c; exact Hs|]. rewrite Hs.
  repeat split; try reflexivity.
  - intros btn Hreg. exact Hreg.
  - exact Hr.
  - intros Hr'. destruct (is_normal result.1) eqn:Hn; [reflexivity|].
    specialize (Hf eq_refl). lia.
Qed.

(** X5: the highlight is never taken back.  Over any run of frames a
    material either keeps its colour or turns red, and a material that is red
    stays red, also after the gaze has moved on. *)
Theorem highlight_is_sticky frames w :
  let result := runFrames intersectObjects frames w in
  onlyHighlighted w result.2
  /\ (forall m, materials w !! m = Some red ->
                materials result.2 !! m = Some red)
  /\ (forall o c, colorOf w o = Some c ->
                  colorOf result.2 o = Some c \/ colorOf result.2 o = Some red)
  /\ dom (materials w) ⊆ dom (materials result.2).
Proof.
  intros result.
  destruct (runFrames_invariant frames w) as (_ & Hh & _).
  fold result in Hh. split; [exact Hh|]. split; [|split].
  - intros m Hred. destruct (Hh m) as [E|E]; congruence.
  - intros o c Hc. unfold colorOf in *.
    destruct (Hh (THREE.material o)) as [E|E]; [left|right]; congruence.
  - intros m Hin. apply elem_of_dom in Hin as [c Hc]. apply elem_of_dom.
    destruct (Hh m) as [E|E]; rewrite E; eauto.
Qed.

End Whole.

(** ** Gestures at the edges *)

Lemma is_nan_Prim2SF x :
  PrimFloat.is_nan x = true -> FloatOps.Prim2SF x = SpecFloat.S754_nan.
Proof.
  unfold PrimFloat.is_nan. rewrite FloatAxioms.eqb_spec.
  destruct (FloatOps.Prim2SF x) as [s|s| |s m e]; try reflexivity;
    unfold SpecFloat.SFeqb, SpecFloat.SFcompare; try (destruct s; discriminate).
  rewrite Z.compare_refl, Pos.compare_cont_refl.
  destruct s; discriminate.
Qed.

Lemma nan_sub x y :
  PrimFloat.is_nan x || PrimFloat.is_nan y = true ->
  FloatOps.Prim2SF (x - y)%float = SpecFloat.S754_nan.
Proof.
  intros H. rewrite FloatAxioms.sub_spec.
  apply orb_prop in H as [H|H]; apply is_nan_Prim2SF in H; rewrite H.
  - reflexivity.
  - destruct (FloatOps.Prim2SF x); reflexivity.
Qed.

Lemma nan_square x :
  FloatOps.Prim2SF x = SpecFloat.S754_nan ->
  FloatOps.Prim2SF (x * x)%float = SpecFloat.S754_nan.
Proof. intros H. rewrite FloatAxioms.mul_spec, H. reflexivity. Qed.

Lemma nan_add x y :
  FloatOps.Prim2SF x = SpecFloat.S754_nan
  \/ FloatOps.Prim2SF y = SpecFloat.S754_nan ->
  FloatOps.Prim2SF (x + y)%float = SpecFloat.S754_nan.
Proof.
  intros H. rewrite FloatAxioms.add_spec. destruct H as [H|H]; rewrite H.
  - reflexivity.
  - destruct (FloatOps.Prim2SF x); reflexivity.
Qed.

Lemma nan_sqrt_not_below x y :
  FloatOps.Prim2SF x = SpecFloat.S754_nan ->
  (PrimFloat.sqrt x <? y)%float = false.
Proof.
  intros H. rewrite FloatAxioms.ltb_spec, FloatAxioms.sqrt_spec, H.
  reflexivity.
Qed.

Lemma distance3D_nan a b :
  hasNaN a || hasNaN b = true ->
  (distance3D a b <? pinchThreshold)%float = false.
Proof.
  intros H. unfold distance3D. cbv zeta. apply nan_sqrt_not_below.
  assert (Hc : PrimFloat.is_nan (XR.x a) || PrimFloat.is_nan (XR.x b) = true
               \/ PrimFloat.is_nan (XR.y a) || PrimFloat.is_nan (XR.y b) = true
               \/ PrimFloat.is_nan (XR.z a) || PrimFloat.is_nan (XR.z b)
                  = true).
  { unfold hasNaN in H.
    destruct (PrimFloat.is_nan (XR.x a)), (PrimFloat.is_nan (XR.y a)),
      (PrimFloat.is_nan (XR.z a)), (PrimFloat.is_nan (XR.x b)),
      (PrimFloat.is_nan (XR.y b)), (PrimFloat.is_nan (XR.z b));
      cbn in *; auto; discriminate. }
  destruct Hc as [Hc|[Hc|Hc]]; apply nan_sub, nan_square in Hc.
  - apply nan_add. left. apply nan_add. left. exact Hc.
  - apply nan_add. left. apply nan_add. right. exact Hc.
  - apply nan_add. right. exact Hc.
Qed.

(** X6: a joint position with a NaN coordinate never pinches: when both
    joint poses resolve and any coordinate of either position is NaN, the
    computed distance is NaN, the comparison with the threshold is false, and
    [detectGestures] returns without a call. *)
Theorem nan_never_pinches hand frame w indexPose thumbPose :
  XR.getJointPose frame (hand !! "index-finger-tip")
    (xrReferenceSpace (self w)) = Normal (Some indexPose) ->
  XR.getJointPose frame (hand !! "thumb-tip")
    (xrReferenceSpace (self w)) = Normal (Some thumbPose) ->
  hasNaN (XR.position (XR.transform indexPose))
  || hasNaN (XR.position (XR.transform thumbPose)) = true ->
  detectGestures hand frame w = (Normal tt, w).
Proof.
  intros Hi Ht Hnan. rewrite (detectGestures_queries _ _ _ _ _ Hi Ht).
  unfold afterQueries. rewrite (distance3D_nan _ _ Hnan). reflexivity.
Qed.

Lemma nan_never_pinches_witness :
  detectGestures scenarioHand (scenarioFrame None (Some PrimFloat.nan))
    scenarioWorld
  = (Normal tt, scenarioWorld).
Proof.
  apply (nan_never_pinches scenarioHand
           (scenarioFrame None (Some PrimFloat.nan)) scenarioWorld
           (at_ 0 1 0) (at_ 0 1 PrimFloat.nan) eq_refl eq_refl eq_refl).
Defined.

(** X7: when the control panel lacks its action button, or the instance its
    control panel, a pinch still reaches [onGesture] first; the click that
    follows raises a [TypeError], after the gesture was handed over. *)
Theorem pinch_without_button hand frame w indexPose thumbPose :
  XR.getJointPose frame (hand !! "index-finger-tip")
    (xrReferenceSpace (self w)) = Normal (Some indexPose) ->
  XR.getJointPose frame (hand !! "thumb-tip")
    (xrReferenceSpace (self w)) = Normal (Some thumbPose) ->
  (distance3D (XR.position (XR.transform indexPose))
              (XR.position (XR.transform thumbPose))
   <? pinchThreshold)%float = true ->
  (forall btn, ~ registered (self w) btn) ->
  exists reading,
    detectGestures hand frame w
    = (Throw (TypeError reading),
       mkWorld (self w) (materials w)
         (log w ++ [Gesture (onGesture (self w)) "pinch"]))
    /\ (reading = "querySelector" \/ reading = "click").
Proof.
  intros Hi Ht Hd Hnone. rewrite (detectGestures_queries _ _ _ _ _ Hi Ht).
  unfold afterQueries. rewrite Hd.
  unfold mbind, M_bind, emit, read, throw, mret, M_ret.
  destruct (guiContainer (self w)) as [gui|] eqn:Hgui;
    cbn -[DOM.querySelector].
  - destruct (DOM.querySelector gui "#actionBtn") as [btn|] eqn:Hbtn.
    + exfalso. apply (Hnone btn). exists gui. auto.
    + exists "click". auto.
  - exists "querySelector". auto.
Qed.

Lemma pinch_without_button_witness :
  exists reading,
    detectGestures scenarioHand (scenarioFrame None (Some z01)) strippedWorld
    = (Throw (TypeError reading),
       mkWorld (self strippedWorld) (materials strippedWorld)
         (log strippedWorld ++ [Gesture Noop "pinch"]))
    /\ (reading = "querySelector" \/ reading = "click").
Proof.
  apply (pinch_without_button scenarioHand (scenarioFrame None (Some z01))
           strippedWorld (at_ 0 1 0) (at_ 0 1 z01) eq_refl eq_refl eq_refl).
  intros btn (gui & Hgui & Hbtn). injection Hgui as <-. discriminate Hbtn.
Defined.

Lemma onXRFrame_with_view_witness :
  let result := onXRFrame everyChild 0%float
                  (scenarioFrame (Some scenarioPose) (Some z01))
                  scenarioWorld in
  camera (self result.2)
  = THREE.mkCamera
      (THREE.mkVector3 0%float 0x1.999999999999ap+0%float 0%float)
      (THREE.mkQuaternion 0%float 0%float 0%float 1%float)
  /\ result.1 = Normal tt
  /\ gestures (since scenarioWorld result.2) = ["pinch"].
Proof.
  destruct (onXRFrame_with_view everyChild 0%float
              (scenarioFrame (Some scenarioPose) (Some z01)) scenarioWorld
              scenarioPose
              (XR.mkPose (XR.mkTransform
                 (XR.mkPoint 0 0x1.999999999999ap+0 0 1)
                 (XR.mkPoint 0 0 0 1)))%float
              eq_refl eq_refl) as (Hc & _ & _ & H).
  destruct (H actionBtn) as (Hn & Hg & _).
  - exists (DOM.mkContainer "openavr-gui"
              [DOM.mkElement "h3" ""; actionBtn;
               DOM.mkElement "input" "slider"]).
    split; reflexivity.
  - repeat constructor.
  - cbv zeta. split; [exact Hc|]. split; [exact Hn | exact Hg].
Defined.

Lemma onXRFrame_pose_without_views_witness :
  let result := onXRFrame everyChild 0%float
                  (scenarioFrame (Some emptyPose) (Some z01))
                  scenarioWorld in
  result.1 = Throw (TypeError "transform")
  /\ gestures (since scenarioWorld result.2) = [].
Proof.
  destruct (onXRFrame_pose_without_views everyChild 0%float
              (scenarioFrame (Some emptyPose) (Some z01)) scenarioWorld
              emptyPose eq_refl eq_refl) as (Hn & _ & _ & _ & Hg & _).
  split; [exact Hn | exact Hg].
Defined.

(** ** What a frame hands to the application *)

Section Handed.

Variable intersectObjects :
  THREE.Vector3 float -> THREE.Vector3 float -> list THREE.Object3D ->
  list THREE.Intersection.

Lemma onXRFrame_since time frame w :
  let result := onXRFrame intersectObjects time frame w in
  exists inputs,
    gestures (since w result.2) = gestures inputs
    /\ clicks (since w result.2) = clicks inputs
    /\ inputProtocol false inputs = true
    /\ (is_normal result.1 = true -> endsWithPinch false inputs = false).
Proof.
  intros result.
  destruct (onXRFrame_shape intersectObjects time frame w)
    as (c & inputs & _ & _ & Hl & P & N).
  fold result in Hl, N. exists inputs.
  rewrite (since_app _ _ _ Hl). cbn.
  rewrite gestures_app, clicks_app.
  destruct (is_normal result.1); cbn; rewrite ?app_nil_r, ?Nat.add_0_r; auto.
Qed.

Lemma handed_gestures_known time frame w :
  Forall (fun type => type = "pinch" \/ type = "select")
    (gestures (since w (onXRFrame intersectObjects time frame w).2)).
Proof.
  destruct (onXRFrame_since time frame w) as (inputs & Hg & _ & P & _).
  rewrite Hg. eapply inputProtocol_gestures; exact P.
Qed.

(** X8: a frame hands only ['pinch'] and ['select'] to [onGesture], and it
    clicks the action button only directly after a pinch: the clicks of a
    frame are its pinches, all of them when the frame completes and all but
    possibly the last when it fails. *)
Theorem frame_gestures_and_clicks time frame w :
  let result := onXRFrame intersectObjects time frame w in
  let new := since w result.2 in
  Forall (fun type => type = "pinch" \/ type = "select") (gestures new)
  /\ clicks new <= pinches new <= clicks new + 1
  /\ (is_normal result.1 = true -> clicks new = pinches new).
Proof.
  intros result new.
  destruct (onXRFrame_since time frame w) as (inputs & Hg & Hc & P & N).
  fold result in Hg, Hc, N. fold new in Hg, Hc.
  pose proof (inputProtocol_clicks _ _ P) as Hcount.
  unfold pinches. rewrite Hg, Hc. split; [|split].
  - rewrite <- Hg. apply handed_gestures_known.
  - destruct (endsWithPinch false inputs); cbn in Hcount; lia.
  - intros Hn. rewrite (N Hn) in Hcount. cbn in Hcount. lia.
Qed.

(** X9: with the [onGesture] of the example page, every gesture a frame
    hands over writes exactly one line to the console: the pinch line for a
    pinch, the select line for a select. *)
Theorem example_onGesture_one_line time frame w :
  let result := onXRFrame intersectObjects time frame w in
  let handed := gestures (since w result.2) in
  concat (map Example.onGesture handed)
  = map (fun type => if String.eqb type "pinch"
                     then "Pinch gesture detected"
                     else "Controller select detected") handed
  /\ List.length (concat (map Example.onGesture handed))
     = List.length handed.
Proof.
  intros result handed.
  assert (Hall : Forall (fun type => type = "pinch" \/ type = "select") handed)
    by apply (handed_gestures_known time frame w).
  assert (E : concat (map Example.onGesture handed)
              = map (fun type => if String.eqb type "pinch"
                                 then "Pinch gesture detected"
                                 else "Controller select detected") handed).
  { induction Hall as [|type rest [->| ->] _ IH]; cbn; [reflexivity| |];
      rewrite IH; reflexivity. }
  split; [exact E|]. rewrite E. apply List.length_map.
Qed.

End Handed.

(** ** The pose mapper, composed *)

(** X10: with a first view the pose mapper writes that view to the camera
    and touches nothing else; the views after the first and the camera from
    before play no part, so of two poses mapped in a row only the second
    shows, and mapping the same pose twice is mapping it once. *)
Theorem updateCameraFromPose_last_wins p1 p2 v1 v2 w :
  XR.views p1 !! 0%nat = Some v1 ->
  XR.views p2 !! 0%nat = Some v2 ->
  let w1 := (updateCameraFromPose p1 w).2 in
  updateCameraFromPose p1 w
  = (Normal tt,
     mkWorld (with_camera (self w) (cameraOf v1)) (materials w) (log w))
  /\ updateCameraFromPose p2 w1 = updateCameraFromPose p2 w
  /\ updateCameraFromPose p1 w1 = updateCameraFromPose p1 w
  /\ camera (self (updateCameraFromPose p2 w1).2) = cameraOf v2
  /\ (forall p, XR.views p !! 0%nat = Some v1 ->
        updateCameraFromPose p w = updateCameraFromPose p1 w).
Proof.
  intros H1 H2 w1. subst w1.
  rewrite (updateCameraFromPose_view _ _ _ H1). cbn.
  rewrite !(updateCameraFromPose_view _ _ _ H2).
  rewrite (updateCameraFromPose_view p1 v1
             (mkWorld (with_camera (self w) (cameraOf v1)) (materials w)
                (log w)) H1).
  cbn. repeat split.
  intros p Hp. apply (updateCameraFromPose_view _ _ _ Hp).
Qed.

Lemma updateCameraFromPose_last_wins_witness :
  camera (self (updateCameraFromPose scenarioPose
                  (updateCameraFromPose twoViews scenarioWorld).2).2)
  = cameraOf leftEye.
Proof.
  apply (updateCameraFromPose_last_wins twoViews scenarioPose
           rightEye leftEye scenarioWorld eq_refl eq_refl).
Defined.

(** ** The constructor and the materials of the page *)

Lemma create3DGUI_fresh w :
  let m := fresh (dom (materials w)) in
  create3DGUI w
  = (Normal tt,
     mkWorld
       (with_scene (self w)
          (scene (self w)
           ++ [THREE.mkObject3D "buttonMesh"
                 (THREE.mkVector3 0 0x1.8p+0 (- 2))%float m]))
       (<[m := green]> (materials w)) (log w))
  /\ materials w !! m = None.
Proof.
  split; [reflexivity|]. apply not_elem_of_dom, is_fresh.
Qed.

Lemma constructor_materials window options store :
  materials (constructor window options store).2
  = <[fresh (dom store) := green]> store
  /\ scene (self (constructor window options store).2)
     = [THREE.mkObject3D "buttonMesh"
          (THREE.mkVector3 0 0x1.8p+0 (- 2))%float (fresh (dom store))].
Proof.
  unfold constructor, createHTMLGUI, create3DGUI, newMaterial, initVoiceInput,
    setThis, getThis, emit, mbind, M_bind, mret, M_ret.
  cbn -[truthy fresh].
  destruct (negb (SpeechRecognition window || webkitSpeechRecognition window)
            || negb (bool_decide (is_Some (truthy (truthy _)))));
    cbn -[fresh]; split; reflexivity.
Qed.

(** X11: the constructor adds one mesh to its scene, the 3D button, with a
    green material of its own: the material is new to the page, and every
    material the page had keeps its colour. *)
Theorem constructor_keeps_store window options store :
  let w := (constructor window options store).2 in
  exists mesh,
    scene (self w) = [mesh]
    /\ store !! THREE.material mesh = None
    /\ colorOf w mesh = Some green
    /\ (forall m c, store !! m = Some c -> materials w !! m = Some c)
    /\ dom (materials w) = dom store ∪ {[THREE.material mesh]}.
Proof.
  intros w. subst w.
  destruct (constructor_materials window options store) as [Hm Hs].
  eexists. split; [exact Hs|]. unfold colorOf. rewrite Hm. cbn.
  assert (Hfresh : store !! fresh (dom store) = None)
    by apply not_elem_of_dom, is_fresh.
  repeat split.
  - exact Hfresh.
  - apply lookup_insert_eq.
  - intros m c Hc. rewrite lookup_insert_ne; [exact Hc|]. congruence.
  - rewrite dom_insert_L. apply (comm_L (∪)).
Qed.

Section Button.

Variable intersectObjects :
  THREE.Vector3 float -> THREE.Vector3 float -> list THREE.Object3D ->
  list THREE.Intersection.

(** X12: on a freshly constructed instance, when the ray caster reports
    only objects of the scene it was given, a gaze can highlight the 3D
    button and nothing else: every material the page had before the
    construction keeps its colour. *)
Theorem gaze_after_construction window options store pose :
  let w := (constructor window options store).2 in
  (forall origin direction children hit,
     In hit (intersectObjects origin direction children) ->
     In (THREE.object hit) children) ->
  let w' := (detectGaze intersectObjects pose w).2 in
  (forall m c, store !! m = Some c -> materials w' !! m = Some c)
  /\ (forall mesh, scene (self w) = [mesh] ->
        colorOf w' mesh = Some green \/ colorOf w' mesh = Some red).
Proof.
  intros w Hsound w'.
  destruct (constructor_materials window options store) as [Hm Hs].
  fold w in Hm, Hs.
  assert (Hfresh : store !! fresh (dom store) = None)
    by apply not_elem_of_dom, is_fresh.
  subst w'. destruct (XR.views pose !! 0%nat) as [view|] eqn:Hview.
  - rewrite (detectGaze_view _ _ _ _ Hview).
    destruct (intersectObjects _ _ _) as [|first rest] eqn:Hhits.
    + cbn. rewrite Hm. split.
      * intros m c Hc. rewrite lookup_insert_ne; [exact Hc|]. congruence.
      * intros mesh Hmesh. left. unfold colorOf. rewrite Hm.
        rewrite Hs in Hmesh. injection Hmesh as <-. apply lookup_insert_eq.
    + assert (Hin : In (THREE.object first) (scene (self w))).
      { eapply Hsound. rewrite Hhits. left. reflexivity. }
      rewrite Hs in Hin. destruct Hin as [Hin|[]].
      cbn. rewrite Hm, <- Hin. cbn. split.
      * intros m c Hc. rewrite !lookup_insert_ne by congruence. exact Hc.
      * intros mesh Hmesh. right. unfold colorOf.
        rewrite Hs in Hmesh. injection Hmesh as <-. apply lookup_insert_eq.
  - rewrite (detectGaze_no_view _ _ _ Hview). cbn. rewrite Hm. split.
    + intros m c Hc. rewrite lookup_insert_ne; [exact Hc|]. congruence.
    + intros mesh Hmesh. left. unfold colorOf. rewrite Hm.
      rewrite Hs in Hmesh. injection Hmesh as <-. apply lookup_insert_eq.
Qed.

End Button.

Lemma gaze_after_construction_witness :
  materials (detectGaze everyChild scenarioPose
               (constructor (mkWindow false false) None paintedStore).2).2
  !! 0%nat = Some 0x0000ff%Z.
Proof.
  apply (gaze_after_construction everyChild (mkWindow false false) None
           paintedStore scenarioPose).
  - intros origin direction children hit Hin. unfold everyChild in Hin.
    apply in_map_iff in Hin as (o & <- & Ho). exact Ho.
  - reflexivity.
Defined.

(* ================================================================== *)
(** * Properties of the session start *)

Lemma with_xrReferenceSpace_same this :
  Init.with_xrReferenceSpace this (xrReferenceSpace this) = this.
Proof. destruct this; reflexivity. Qed.

(** The cases of [initXR], one by one. *)
Ltac initXR_cases page this :=
  unfold Init.initXR;
  destruct (Init.xr page) as [xr|]; cbn;
  [ destruct (Init.isSessionSupported xr _) as [[|]|r1]; cbn;
    [ destruct (Init.requestSession xr _ _) as [session|r2]; cbn;
      [ destruct (Init.makeLayer page _ _) as [[]|r3]; cbn;
        [ destruct (Init.requestReferenceSpace session _) as [space|r4]; cbn
        | ]
      | ]
    | | ]
  | ].

(** X13: [initXR] starts the frame loop exactly when it is fulfilled, and
    then as its last call, once, with the reference space of the session
    stored; when it is rejected the instance keeps the reference space it
    had and no frame is requested.  It asks for at most one session and never
    changes a field of the instance other than the session, the context and
    the reference space. *)
Theorem initXR_all_or_nothing page this :
  let result := Init.initXR page this in
  let outcome := result.1.1 in
  let this' := result.1.2 in
  let calls := result.2 in
  (exists space,
     Init.core this' = Init.with_xrReferenceSpace (Init.core this) space)
  /\ (Init.is_fulfilled outcome = true <-> Init.started calls = 1)
  /\ Init.started calls <= 1
  /\ Init.sessionsRequested calls <= 1
  /\ (Init.is_fulfilled outcome = true ->
      is_Some (xrReferenceSpace (Init.core this'))
      /\ is_Some (Init.xrSession this')
      /\ last calls = Some Init.FirstFrame)
  /\ (Init.is_fulfilled outcome = false ->
      Init.core this' = Init.core this /\ Init.started calls = 0).
Proof.
  initXR_cases page this;
    (split; [eexists; first [reflexivity
                            | symmetry; apply with_xrReferenceSpace_same]|]);
    repeat split; intros; try discriminate; try lia; eauto.
Qed.

(** X14: every session type [initXR] names is ['immersive-vr'] when the mode
    is exactly ['VR'] and ['immersive-ar'] for every other mode, and a
    session is only ever requested with the optional features
    ['local-floor'] and ['hand-tracking']. *)
Theorem initXR_session_type page this :
  let calls := (Init.initXR page this).2 in
  Forall (fun type =>
            type = if bool_decide (mode (Init.core this) = "VR")
                   then "immersive-vr" else "immersive-ar")
         (Init.sessionTypes calls)
  /\ (forall type features,
        In (Init.RequestSession type features) calls ->
        features = ["local-floor"; "hand-tracking"]).
Proof.
  assert (E : Init.sessionTypeOf (mode (Init.core this))
              = if bool_decide (mode (Init.core this) = "VR")
                then "immersive-vr" else "immersive-ar").
  { unfold Init.sessionTypeOf.
    destruct (String.eqb_spec (mode (Init.core this)) "VR") as [->|Hne].
    - reflexivity.
    - rewrite bool_decide_eq_false_2 by exact Hne. reflexivity. }
  rewrite <- E. clear E.
  initXR_cases page this; split;
    try (repeat constructor);
    intros type features Hin; cbn in Hin;
    repeat (destruct Hin as [Hin|Hin]; [try discriminate Hin|]);
    try contradiction; try (injection Hin as _ <-; reflexivity).
Qed.

(** X15: the failures of [initXR].  Without [navigator.xr], or when the
    session type is not supported, the promise is rejected with the message
    of the method, the instance is what it was and no session is requested.
    When the session is granted and a later step fails, the instance keeps
    the session, and the loop is not started. *)
Theorem initXR_failures page this :
  let result := Init.initXR page this in
  (Init.xr page = None ->
   result = (Init.Rejected (Init.Message "WebXR not supported"), this, []))
  /\ (forall xr,
        Init.xr page = Some xr ->
        Init.isSessionSupported xr
          (Init.sessionTypeOf (mode (Init.core this)))
        = Init.Fulfilled false ->
        result.1
        = (Init.Rejected
             (Init.Message (mode (Init.core this) ++ " not supported")),
           this)
        /\ Init.sessionsRequested result.2 = 0)
  /\ (forall xr session,
        Init.xr page = Some xr ->
        Init.isSessionSupported xr
          (Init.sessionTypeOf (mode (Init.core this)))
        = Init.Fulfilled true ->
        Init.requestSession xr
          (Init.sessionTypeOf (mode (Init.core this)))
          ["local-floor"; "hand-tracking"] = Init.Fulfilled session ->
        Init.is_fulfilled result.1.1 = false ->
        Init.xrSession result.1.2 = Some (Init.sessionId session)
        /\ Init.gl result.1.2 = Init.getContext page
        /\ Init.core result.1.2 = Init.core this
        /\ Init.started result.2 = 0).
Proof.
  intros result. subst result. split; [|split].
  - intros Hxr. unfold Init.initXR. rewrite Hxr. reflexivity.
  - intros xr Hxr Hsup. unfold Init.initXR. rewrite Hxr. cbn.
    rewrite Hsup. auto.
  - intros xr session Hxr Hsup Hreq. unfold Init.initXR. rewrite Hxr. cbn.
    rewrite Hsup, Hreq. cbn.
    destruct (Init.makeLayer page _ _) as [[]|r3]; cbn; [|auto].
    destruct (Init.requestReferenceSpace session _) as [space|r4]; cbn;
      [discriminate|auto].
Qed.

(** X16: an instance built from options without a mode, or with any mode
    other than ['VR'], asks for an ['immersive-ar'] session; only the mode
    ['VR'] asks for ['immersive-vr']. *)
Theorem constructed_session_type window options store page :
  let opts := default emptyOptions options in
  let this := Init.fresh_instance (constructor window options store).2 in
  Forall (fun type =>
            type = if bool_decide (opt_mode opts = Some "VR")
                   then "immersive-vr" else "immersive-ar")
         (Init.sessionTypes (Init.initXR page this).2).
Proof.
  intros opts this.
  assert (Hmode : mode (Init.core this)
                  = default "AR" (truthy (opt_mode opts))).
  { subst this. unfold Init.fresh_instance, constructor. fold opts.
    unfold createHTMLGUI, create3DGUI, newMaterial, initVoiceInput, setThis,
      getThis, emit, mbind, M_bind, mret, M_ret.
    cbn -[truthy fresh].
    destruct (negb _ || negb _); reflexivity. }
  assert (E : Init.sessionTypeOf (mode (Init.core this))
              = if bool_decide (opt_mode opts = Some "VR")
                then "immersive-vr" else "immersive-ar").
  { rewrite Hmode. unfold Init.sessionTypeOf.
    destruct (opt_mode opts) as [m|]; cbn; [|reflexivity].
    destruct (String.eqb_spec m "") as [->|Hne]; cbn; [reflexivity|].
    destruct (String.eqb_spec m "VR") as [->|Hne'].
    - reflexivity.
    - rewrite bool_decide_eq_false_2 by congruence. reflexivity. }
  rewrite <- E. clear E Hmode.
  initXR_cases page this; repeat constructor.
Qed.

(* ================================================================== *)
(** * Further properties of the voice relay *)





Lemma step_forwards this r i response data entities :
  Voice.pending r !! i = Some (Voice.AwaitingJson response) ->
  getProperty data "entities" = Normal entities ->
  Voice.step this r (Voice.JsonSettled i (Normal data))
  = Voice.mkRelay (delete i (Voice.pending r))
      (Voice.heard r ++ [VoiceCommand (onVoiceCommand this) entities]).
Proof.
  intros Hi He. cbn [Voice.step]. rewrite Hi. unfold Voice.afterJson.
  rewrite He. reflexivity.
Qed.

(** X18: payloads are forwarded in the order in which the answers arrive,
    not in the order of the utterances: of two tasks that wait for their
    body, the one that settles first is forwarded first. *)
Theorem completion_order_decides this r i j a b d1 d2 e1 e2 :
  i < j ->
  Voice.pending r !! i = Some (Voice.AwaitingJson a) ->
  Voice.pending r !! j = Some (Voice.AwaitingJson b) ->
  getProperty d1 "entities" = Normal e1 ->
  getProperty d2 "entities" = Normal e2 ->
  let later_first :=
    Voice.run this r [Voice.JsonSettled j (Normal d2);
                      Voice.JsonSettled i (Normal d1)] in
  let earlier_first :=
    Voice.run this r [Voice.JsonSettled i (Normal d1);
                      Voice.JsonSettled (j - 1) (Normal d2)] in
  Voice.forwarded (Voice.heard later_first)
  = Voice.forwarded (Voice.heard r) ++ [e2; e1]
  /\ Voice.forwarded (Voice.heard earlier_first)
     = Voice.forwarded (Voice.heard r) ++ [e1; e2]
  /\ List.length (Voice.pending later_first)
     = List.length (Voice.pending r) - 2
  /\ List.length (Voice.pending earlier_first)
     = List.length (Voice.pending r) - 2.
Proof.
  intros Hij Hi Hj H1 H2 later_first earlier_first.
  subst later_first earlier_first. unfold Voice.run. cbn [fold_left].
  rewrite (step_forwards this r j b d2 e2 Hj H2).
  rewrite (step_forwards this r i a d1 e1 Hi H1).
  assert (Hi' : delete j (Voice.pending r) !! i = Some (Voice.AwaitingJson a))
    by (rewrite list_lookup_delete_lt by lia; exact Hi).
  assert (Hj' : delete i (Voice.pending r) !! (j - 1)
                = Some (Voice.AwaitingJson b)).
  { rewrite list_lookup_delete_ge by lia.
    replace (S (j - 1)) with j by lia. exact Hj. }
  rewrite (step_forwards this
             (Voice.mkRelay (delete j (Voice.pending r)) _) i a d1 e1 Hi' H1).
  rewrite (step_forwards this
             (Voice.mkRelay (delete i (Voice.pending r)) _) (j - 1) b d2 e2
             Hj' H2).
  cbn [Voice.pending Voice.heard].
  rewrite !forwarded_app. cbn. rewrite <- !app_assoc. cbn.
  pose proof (lookup_lt_Some _ _ _ Hj) as Hlen.
  repeat split.
  - rewrite !length_delete by eauto. lia.
  - rewrite !length_delete by eauto. lia.
Qed.

Lemma completion_order_decides_witness :
  let r := Voice.mkRelay [Voice.AwaitingJson (Voice.mkResponse 200);
                          Voice.AwaitingJson (Voice.mkResponse 200)] [] in
  Voice.forwarded
    (Voice.heard
       (Voice.run (self scenarioWorld) r
          [Voice.JsonSettled 1 (Normal intentBody);
           Voice.JsonSettled 0 (Normal errorBody)]))
  = [intentEntities; Undefined].
Proof.
  apply (completion_order_decides (self scenarioWorld)
           (Voice.mkRelay [Voice.AwaitingJson (Voice.mkResponse 200);
                           Voice.AwaitingJson (Voice.mkResponse 200)] [])
           0 1 (Voice.mkResponse 200) (Voice.mkResponse 200)
           errorBody intentBody Undefined intentEntities).
  - lia.
  - reflexivity.
  - reflexivity.
  - reflexivity.
  - reflexivity.
Defined.



(** X20: an answer without entities still reaches the callback.  When the
    body of a response is a JSON object without an [entities] property, as
    the error bodies of the service are, [onVoiceCommand] is called with
    [undefined]; when the body is [null] the handler fails and nothing is
    forwarded.  The status of the response is never looked at. *)
Theorem answer_without_entities this r i response props :
  Voice.pending r !! i = Some (Voice.AwaitingJson response) ->
  assoc "entities" props = None ->
  Voice.step this r (Voice.JsonSettled i (Normal (JObject props)))
  = Voice.mkRelay (delete i (Voice.pending r))
      (Voice.heard r ++ [VoiceCommand (onVoiceCommand this) Undefined])
  /\ Voice.step this r (Voice.JsonSettled i (Normal JNull))
     = Voice.mkRelay (delete i (Voice.pending r))
         (Voice.heard r ++ [UnhandledRejection (TypeError "entities")])
  /\ (forall status data,
        Voice.step this
          (Voice.mkRelay (<[i := Voice.AwaitingJson (Voice.mkResponse status)]>
                            (Voice.pending r)) (Voice.heard r))
          (Voice.JsonSettled i (Normal data))
        = Voice.step this r (Voice.JsonSettled i (Normal data))).
Proof.
  intros Hi Hnone. split; [|split].
  - apply (step_forwards _ _ _ _ _ _ Hi). cbn. rewrite Hnone. reflexivity.
  - cbn [Voice.step]. rewrite Hi. reflexivity.
  - intros status data. cbn [Voice.step Voice.pending].
    rewrite list_lookup_insert_eq by (eapply lookup_lt_Some; exact Hi).
    rewrite Hi. unfold Voice.afterJson, Voice.reject. cbn.
    assert (Hd : delete i (<[i := Voice.AwaitingJson (Voice.mkResponse status)]>
                             (Voice.pending r))
                 = delete i (Voice.pending r)).
    { apply list_eq. intros k.
      destruct (decide (k < i)) as [Hlt|Hge].
      - rewrite !list_lookup_delete_lt by lia.
        apply list_lookup_insert_ne. lia.
      - rewrite !list_lookup_delete_ge by lia.
        apply list_lookup_insert_ne. lia. }
    rewrite Hd. reflexivity.
Qed.

Lemma answer_without_entities_witness :
  Voice.heard
    (Voice.step (self scenarioWorld)
       (Voice.mkRelay [Voice.AwaitingJson (Voice.mkResponse 401)] [])
       (Voice.JsonSettled 0 (Normal errorBody)))
  = [VoiceCommand Noop Undefined].
Proof.
  destruct (answer_without_entities (self scenarioWorld)
              (Voice.mkRelay [Voice.AwaitingJson (Voice.mkResponse 401)] [])
              0 (Voice.mkResponse 401)
              [("error", JString "Bad auth"); ("code", JString "no-auth")]
              eq_refl eq_refl) as (H & _).
  exact (f_equal Voice.heard H).
Defined.

(* ================================================================== *)
(** * Properties of the example page *)

(** X21: the [onVoiceCommand] of the example page fails exactly on
    [undefined] and [null] entities, which is what it is handed after an
    answer without entities; on every other value it returns, and it writes
    its line exactly when the first intent carries the value
    ['change_scene']. *)
Theorem example_onVoiceCommand_cases :
  (forall entities,
     is_normal (Example.onVoiceCommand entities) = false
     <-> entities = Undefined \/ entities = Val JNull)
  /\ (forall props item rest s,
        assoc "intent" props = Some (JArray (JObject item :: rest)) ->
        assoc "value" item = Some (JString s) ->
        (Example.onVoiceCommand (Val (JObject props)))
        = Normal (if String.eqb s "change_scene"
                  then ["Voice intent: Change scene"] else []))
  /\ (forall props,
        assoc "intent" props = None ->
        (Example.onVoiceCommand (Val (JObject props))) = Normal [])
  /\ (forall props,
        assoc "intent" props = Some (JArray []) ->
        (Example.onVoiceCommand (Val (JObject props))) = Normal []).
Proof.
  split; [|split; [|split]].
  - intros entities. split.
    + intros Hfail. destruct entities as [|j]; [auto|].
      destruct j; [auto| | | | |]; exfalso; revert Hfail;
        unfold Example.onVoiceCommand; cbv zeta;
        match goal with
        | |- context [Example.optional ?v ?f] =>
            destruct (Example.optional v f) as [|[| | |text| |]]
        end; try discriminate;
        destruct (String.eqb text "change_scene"); discriminate.
    + intros [-> | ->]; reflexivity.
  - intros props item rest s Hintent Hvalue. unfold Example.onVoiceCommand.
    cbn. rewrite Hintent. cbn. rewrite Hvalue.
    destruct (String.eqb s "change_scene"); reflexivity.
  - intros props Hintent. unfold Example.onVoiceCommand. cbn.
    rewrite Hintent. reflexivity.
  - intros props Hintent. unfold Example.onVoiceCommand. cbn.
    rewrite Hintent. reflexivity.
Qed.

(* ================================================================== *)
(** * From the session start to the frames *)

Section Started.

Variable intersectObjects :
  THREE.Vector3 float -> THREE.Vector3 float -> list THREE.Object3D ->
  list THREE.Intersection.

(** X22: after a fulfilled [initXR] the frames resolve the viewer pose and
    the joints against the reference space the session handed out for
    ['local-floor']: a frame that has a pose with a first view for that space
    moves the camera there, and a hand whose joints resolve for that space
    pinches by their distance. *)
Theorem initXR_then_frame page this xr session space w :
  Init.xr page = Some xr ->
  Init.isSessionSupported xr (Init.sessionTypeOf (mode (Init.core this)))
  = Init.Fulfilled true ->
  Init.requestSession xr (Init.sessionTypeOf (mode (Init.core this)))
    ["local-floor"; "hand-tracking"] = Init.Fulfilled session ->
  Init.makeLayer page (Init.sessionId session) (Init.getContext page)
  = Init.Fulfilled tt ->
  Init.requestReferenceSpace session "local-floor" = Init.Fulfilled space ->
  self w = Init.core (Init.initXR page this).1.2 ->
  xrReferenceSpace (self w) = Some space
  /\ (forall time frame pose view,
        XR.getViewerPose frame (Some space) = Some pose ->
        XR.views pose !! 0%nat = Some view ->
        camera (self (onXRFrame intersectObjects time frame w).2)
        = cameraOf view)
  /\ (forall frame hand indexPose thumbPose,
        XR.getJointPose frame (hand !! "index-finger-tip") (Some space)
        = Normal (Some indexPose) ->
        XR.getJointPose frame (hand !! "thumb-tip") (Some space)
        = Normal (Some thumbPose) ->
        gestures (log (detectGestures hand frame w).2)
        = gestures (log w)
          ++ (if (distance3D (XR.position (XR.transform indexPose))
                             (XR.position (XR.transform thumbPose))
                  <? pinchThreshold)%float
              then ["pinch"] else [])).
Proof.
  intros Hxr Hsup Hreq Hlayer Hspace Hself.
  assert (Hrs : xrReferenceSpace (self w) = Some space).
  { rewrite Hself. unfold Init.initXR.
    rewrite Hxr. cbn. rewrite Hsup, Hreq. cbn. rewrite Hlayer, Hspace.
    reflexivity. }
  split; [exact Hrs|]. split.
  - intros time frame pose view Hpose Hview.
    rewrite <- Hrs in Hpose.
    rewrite (onXRFrame_viewed _ _ _ _ _ _ Hpose Hview).
    destruct (loop_footprint frame (posed intersectObjects w view))
      as (inputs & Hs & _).
    rewrite Hs. reflexivity.
  - intros frame hand indexPose thumbPose Hi Ht.
    rewrite <- Hrs in Hi, Ht.
    rewrite (detectGestures_queries _ _ _ _ _ Hi Ht). unfold afterQueries.
    destruct (_ <? _)%float.
    + apply pinch_branch_gestures.
    + cbn. rewrite app_nil_r. reflexivity.
Qed.

End Started.

Lemma initXR_then_frame_witness :
  camera (self (onXRFrame noHits 0%float
                  (scenarioFrame (Some scenarioPose) None)
                  startedWorld).2)
  = cameraOf leftEye.
Proof.
  destruct (initXR_then_frame noHits grantingPage
              (Init.fresh_instance scenarioWorld)
              (Init.mkXRSystem
                 (fun _ => Init.Fulfilled true)
                 (fun _ _ =>
                    Init.Fulfilled
                      (Init.mkHandle 1 (fun _ => Init.Fulfilled 7%nat))))
              (Init.mkHandle 1 (fun _ => Init.Fulfilled 7%nat))
              7%nat startedWorld eq_refl eq_refl eq_refl eq_refl eq_refl
              eq_refl) as (_ & H & _).
  apply (H 0%float (scenarioFrame (Some scenarioPose) None) scenarioPose
           leftEye eq_refl eq_refl).
Defined.
